(** * bookapp: a shallow embedding of the views, the form and the URL table

    The development follows the layout of the Django application:
    - [Py]       the Python values the code manipulates (text, dates, truthiness);
    - [Models]   the rows of the [Book] table and the query sets built over it;
    - [Views]    [book_list] and [stats] of [views.py];
    - [Forms]    [BookForm] of [forms.py] inside Django's form cleaning cycle;
    - [Urls]     [urlpatterns] of [urls.py] and the access mixins of the
                 class-based views.
    Definitions come first, the properties are proved at the end. *)

From Stdlib Require Import QArith Qabs Ascii.
From stdpp Require Import gmap strings list fin_maps pretty sorting.

Local Open Scope string_scope.
Local Open Scope Z_scope.

(* ===================================================================== *)
(** ** Python values *)
(* ===================================================================== *)

Module Py.

(** [datetime.date]: compared field by field, year first. *)
Record date := Date { year : Z; month : Z; day : Z }.

Definition date_compare (a b : date) : comparison :=
  match year a ?= year b with
  | Eq => match month a ?= month b with
          | Eq => day a ?= day b
          | c => c
          end
  | c => c
  end.

Definition date_lt (a b : date) : bool :=
  match date_compare a b with Lt => true | _ => false end.

Definition date_le (a b : date) : bool :=
  match date_compare a b with Gt => false | _ => true end.

(** The values found in a form's [data] and [cleaned_data] dictionaries. *)
Inductive value :=
| VNone
| VStr (s : string)
| VInt (z : Z)
| VDate (d : date).

(** Python truth value: [None], the empty text and [0] are false; a
    [date] is always true. *)
Definition truthy (v : value) : bool :=
  match v with
  | VNone => false
  | VStr s => negb (String.eqb s "")
  | VInt z => negb (z =? 0)
  | VDate _ => true
  end.

(** [d.get(key)]: [None] when the key is missing. *)
Definition dict_get (d : gmap string value) (key : string) : value :=
  default VNone (d !! key).

(** Case folding of one character as the database's case-insensitive
    match does it: the letters A to Z. *)
Definition lower_ascii (c : ascii) : ascii :=
  let n := nat_of_ascii c in
  if ((65 <=? n)%nat && (n <=? 90)%nat)%bool then ascii_of_nat (n + 32) else c.

Fixpoint lower (s : string) : string :=
  match s with
  | EmptyString => EmptyString
  | String c r => String (lower_ascii c) (lower r)
  end.

(** [needle in hay]. *)
Fixpoint contains (needle hay : string) : bool :=
  (String.prefix needle hay
   || match hay with
      | EmptyString => false
      | String _ r => contains needle r
      end)%bool.

(** [x in xs] for a list of texts. *)
Definition str_in (x : string) (xs : list string) : bool :=
  existsb (String.eqb x) xs.

End Py.

(* ===================================================================== *)
(** ** The Book table and its query sets *)
(* ===================================================================== *)

Module Models.
Import Py.

(** One row of the [Book] table, with the columns the views read;
    [book_id] is the primary key, [id]. *)
Record Book := {
  book_id : Z;
  title : string;
  pages : Z;
  rating : option Z;
  status : string;
  published_date : date;
  read_date : option date
}.

Inductive column :=
| c_id | c_title | c_pages | c_rating | c_status | c_published_date | c_read_date.

(** The columns of the row by the name [order_by] knows them; any other
    name is treated as a [FieldError]. *)
Definition resolve_column (name : string) : option column :=
  if String.eqb name "id" then Some c_id
  else if String.eqb name "title" then Some c_title
  else if String.eqb name "pages" then Some c_pages
  else if String.eqb name "rating" then Some c_rating
  else if String.eqb name "status" then Some c_status
  else if String.eqb name "published_date" then Some c_published_date
  else if String.eqb name "read_date" then Some c_read_date
  else None.

(** An ordering key: a field name, with a leading "-" for descending. *)
Definition parse_ordering (key : string) : option (bool * column) :=
  match key with
  | String "-" rest => pair true <$> resolve_column rest
  | _ => pair false <$> resolve_column key
  end.

(** NULL sorts before every value. *)
Definition option_leb {A} (leb : A → A → bool) (a b : option A) : bool :=
  match a, b with
  | None, _ => true
  | Some _, None => false
  | Some x, Some y => leb x y
  end.

Definition column_leb (c : column) (a b : Book) : bool :=
  match c with
  | c_id => book_id a <=? book_id b
  | c_title => String.leb (title a) (title b)
  | c_pages => pages a <=? pages b
  | c_rating => option_leb Z.leb (rating a) (rating b)
  | c_status => String.leb (status a) (status b)
  | c_published_date => date_le (published_date a) (published_date b)
  | c_read_date => option_leb date_le (read_date a) (read_date b)
  end.

Definition ordering_leb (o : bool * column) (a b : Book) : bool :=
  if o.1 then column_leb o.2 b a else column_leb o.2 a b.

(** ORDER BY: a stable insertion sort; rows with equal keys keep the
    order of the table. *)
Fixpoint insert_by {A} (leb : A → A → bool) (x : A) (l : list A) : list A :=
  match l with
  | [] => [x]
  | y :: r => if leb x y then x :: y :: r else y :: insert_by leb x r
  end.

Definition sort_by {A} (leb : A → A → bool) (l : list A) : list A :=
  foldr (insert_by leb) [] l.

(** A query set is a description of a query; nothing is read before it
    is evaluated. *)
Record QuerySet := {
  qs_title_icontains : option string;
  qs_order_by : option string
}.

(** [Book.objects.all()] *)
Definition objects_all : QuerySet :=
  {| qs_title_icontains := None; qs_order_by := None |}.

(** [.filter(title__icontains=text)] *)
Definition filter_title_icontains (text : string) (qs : QuerySet) : QuerySet :=
  {| qs_title_icontains := Some text;
     qs_order_by := qs_order_by qs |}.

(** [.order_by(key)] *)
Definition order_by (key : string) (qs : QuerySet) : QuerySet :=
  {| qs_title_icontains := qs_title_icontains qs;
     qs_order_by := Some key |}.

(** [title__icontains]: substring test that ignores the case of letters. *)
Definition icontains (text : string) (b : Book) : bool :=
  contains (lower text) (lower (title b)).

Definition where_clause (qs : QuerySet) (b : Book) : bool :=
  match qs_title_icontains qs with
  | Some text => icontains text b
  | None => true
  end.

(** Running the query on the table; [None] stands for the [FieldError]
    of an ordering key that names no field. *)
Definition evaluate (table : list Book) (qs : QuerySet) : option (list Book) :=
  let rows := List.filter (where_clause qs) table in
  match qs_order_by qs with
  | None => Some rows
  | Some key => o ← parse_ordering key; Some (sort_by (ordering_leb o) rows)
  end.

End Models.

(* ===================================================================== *)
(** ** Requests and users *)
(* ===================================================================== *)

Module Http.
Import Py.

(** [request.user]: the anonymous user, or a logged-in account with
    its superuser flag and the permissions it holds. *)
Inductive User :=
| AnonymousUser
| AuthenticatedUser (is_superuser : bool) (user_permissions : gset string).

Definition is_authenticated (u : User) : bool :=
  match u with
  | AnonymousUser => false
  | AuthenticatedUser _ _ => true
  end.

(** [user.has_perm(perm)] *)
Definition has_perm (u : User) (perm : string) : bool :=
  match u with
  | AnonymousUser => false
  | AuthenticatedUser is_superuser perms => is_superuser || bool_decide (perm ∈ perms)
  end.

Inductive http_method := Get | Head | Post.

(** A request: method, path below the application's root, user, query
    string, submitted form and uploaded files. *)
Record HttpRequest := {
  method : http_method;
  path : string;
  user : User;
  GET : gmap string string;
  POST : gmap string value;
  FILES : gmap string value
}.

End Http.

(* ===================================================================== *)
(** ** views.py *)
(* ===================================================================== *)

Module Views.
Import Py Models Http.

(** [request.GET.get(key, default)] and [request.GET.get(key)] *)
Definition GET_get (request : HttpRequest) (key fallback : string) : string :=
  default fallback (GET request !! key).

(** *** django.core.paginator *)

(** White space as [str.strip] sees it. *)
Definition is_space (c : ascii) : bool :=
  let n := nat_of_ascii c in
  (((9 <=? n) && (n <=? 13)) || ((28 <=? n) && (n <=? 32))
   || (n =? 133) || (n =? 160))%nat%bool.

Fixpoint lstrip (s : string) : string :=
  match s with
  | String c r => if is_space c then lstrip r else s
  | EmptyString => EmptyString
  end.

Definition strip (s : string) : string :=
  String.rev (lstrip (String.rev (lstrip s))).

(** White space as [int] skips it around a number: that of
    [str.strip] but for the separators 28 to 31. *)
Definition is_int_space (c : ascii) : bool :=
  let n := nat_of_ascii c in
  (((9 <=? n) && (n <=? 13)) || (n =? 32) || (n =? 133) || (n =? 160))%nat%bool.

Fixpoint int_lstrip (s : string) : string :=
  match s with
  | String c r => if is_int_space c then int_lstrip r else s
  | EmptyString => EmptyString
  end.

Definition int_strip (s : string) : string :=
  String.rev (int_lstrip (String.rev (int_lstrip s))).

Definition digit (c : ascii) : option Z :=
  let n := nat_of_ascii c in
  if ((48 <=? n) && (n <=? 57))%nat%bool then Some (Z.of_nat (n - 48)) else None.

(** Digits, single underscores allowed between two digits. *)
Fixpoint digits (acc : Z) (s : string) : option Z :=
  match s with
  | EmptyString => Some acc
  | String "_" (String c r as rest) =>
      match digit c with Some _ => digits acc rest | None => None end
  | String c r =>
      match digit c with Some d => digits (10 * acc + d) r | None => None end
  end.

Definition unsigned (s : string) : option Z :=
  match s with
  | String c _ => match digit c with Some _ => digits 0 s | None => None end
  | EmptyString => None
  end.

(** [int(text)] on decimal text; [None] is the [ValueError]. *)
Definition py_int (s : string) : option Z :=
  match int_strip s with
  | String "-" r => Z.opp <$> unsigned r
  | String "+" r => unsigned r
  | r => unsigned r
  end.

Record Paginator := { object_list : list Book; per_page : nat }.

(** [Paginator.num_pages]: at least one page, also for no rows. *)
Definition num_pages (p : Paginator) : nat :=
  let hits := Nat.max 1 (length (object_list p)) in
  Nat.div (hits + per_page p - 1) (per_page p).

(** [Paginator.page(number)]: the rows of that page. *)
Definition page (p : Paginator) (number : nat) : list Book :=
  let bottom := ((number - 1) * per_page p)%nat in
  take (per_page p) (drop bottom (object_list p)).

(** [Paginator.get_page(number)]: the first page when the number is
    missing or no integer, the last page when it is out of range. *)
Definition get_page (p : Paginator) (number : option string) : list Book :=
  match number ≫= py_int with
  | None => page p 1
  | Some n =>
      if (n <? 1) || (Z.of_nat (num_pages p) <? n)
      then page p (num_pages p)
      else page p (Z.to_nat n)
  end.

(** *** book_list *)

Definition VALID_ORDER_FIELDS : list string :=
  [ "title"; "pages"; "rating"; "status"; "published_date";
    "-title"; "-pages"; "-rating"; "-status"; "-published_date" ].

(** The context handed to the template. *)
Record list_context := {
  page_obj : list Book;
  ctx_title_filter : string;
  ctx_order_by : string
}.

(** An HTTP response: the rendered context, or the server error of an
    exception that nothing catches. *)
Inductive response (C : Type) :=
| Render (context : C)
| ServerError.
Arguments Render {C} context.
Arguments ServerError {C}.

(** Lines 47 to 50 of [book_list]: the requested sort key, replaced by
    "title" when it is not in the list. *)
Definition book_list_order_by (request : HttpRequest) : string :=
  let order_by := GET_get request "order_by" "title" in
  if negb (str_in order_by VALID_ORDER_FIELDS) then "title" else order_by.

(** Lines 52 to 57 of [book_list]: the query set given to the
    paginator. *)
Definition book_list_books (request : HttpRequest) : QuerySet :=
  let title_filter := GET_get request "title" "" in
  let order_by := book_list_order_by request in
  let books := objects_all in
  let books :=
    if negb (String.eqb title_filter "")
    then filter_title_icontains title_filter books
    else books in
  Models.order_by order_by books.

Definition book_list (table : list Book) (request : HttpRequest)
  : response list_context :=
  let title_filter := GET_get request "title" "" in
  let order_by := book_list_order_by request in
  let books := book_list_books request in
  match evaluate table books with
  | None => ServerError
  | Some rows =>
      let paginator := {| object_list := rows; per_page := 5 |} in
      let page_number := GET request !! "page" in
      let page_obj := get_page paginator page_number in
      Render {| page_obj := page_obj;
                ctx_title_filter := title_filter;
                ctx_order_by := order_by |}
  end.

(** *** stats *)

(** [qs.first()]: the first row of the ordered query, [None] when there
    is none. *)
Definition first (table : list Book) (qs : QuerySet) : option (option Book) :=
  rows ← evaluate table qs; Some (head rows).

(** [aggregate(avg=Avg(...))['avg']]: the mean of the values that are
    not NULL, [None] when there are none.  The database's floating-point
    mean is taken as the exact quotient. *)
Definition Avg (xs : list Z) : option Q :=
  match xs with
  | [] => None
  | _ => Some (inject_Z (foldr Z.add 0%Z xs) / inject_Z (Z.of_nat (length xs)))%Q
  end.

(** [x or 0] *)
Definition or_0 (x : option Q) : Q :=
  match x with
  | Some q => if Qeq_bool q 0 then 0%Q else q
  | None => 0%Q
  end.

(** The nearest integer, a tie going to the even one. *)
Definition round_half_even (q : Q) : Z :=
  let n := Qnum q in
  let d := Z.pos (Qden q) in
  let f := n `div` d in
  match 2 * (n `mod` d) ?= d with
  | Lt => f
  | Gt => f + 1
  | Eq => if Z.even f then f else f + 1
  end.

(** [round(x, 2)], on the exact value. *)
Definition round2 (x : Q) : Q :=
  (inject_Z (round_half_even (x * 100)) / 100)%Q.

(** [.values(col).annotate(count=Count('id'))]: one pair per distinct
    value with the number of rows that carry it.  Without [order_by] the
    database fixes no order of the pairs; here it is that of the last
    occurrences. *)
Definition values_count `{EqDecision K} (keys : list K) : list (K * Z) :=
  (λ k, (k, Z.of_nat (length (filter (λ x, x = k) keys)))) <$> remove_dups keys.

Definition status_data (table : list Book) : list (string * Z) :=
  values_count (status <$> table).

(** [.filter(rating__isnull=False).values('rating').annotate(...)
    .order_by('rating')] *)
Definition rating_data (table : list Book) : list (Z * Z) :=
  sort_by (λ a b, a.1 <=? b.1) (values_count (omap rating table)).

(** [json.dumps] of a list of integers and of a list of texts. *)
Definition json_join (items : list string) : string :=
  "[" +:+ String.concat ", " items +:+ "]".

Definition json_dumps_ints (xs : list Z) : string :=
  json_join (pretty <$> xs).

(** The double quote character. *)
Definition quote : ascii := ascii_of_nat 34.

Definition hex_digit (n : nat) : ascii :=
  if (n <? 10)%nat then ascii_of_nat (48 + n) else ascii_of_nat (87 + n).

Definition json_escape_char (c : ascii) : string :=
  let n := nat_of_ascii c in
  if (n =? 34)%nat then String "\" (String quote EmptyString)
  else if (n =? 92)%nat then "\\"
  else if (n =? 10)%nat then "\n"
  else if (n =? 13)%nat then "\r"
  else if (n =? 9)%nat then "\t"
  else if (n =? 8)%nat then "\b"
  else if (n =? 12)%nat then "\f"
  else if ((32 <=? n) && (n <=? 126))%nat%bool then String c EmptyString
  else "\u00" +:+ String (hex_digit (n / 16)) (String (hex_digit (n mod 16)) EmptyString).

Fixpoint json_escape (s : string) : string :=
  match s with
  | EmptyString => EmptyString
  | String c r => json_escape_char c +:+ json_escape r
  end.

Definition json_dumps_strs (xs : list string) : string :=
  json_join ((λ s, String quote (json_escape s +:+ String quote EmptyString)) <$> xs).

Record stats_context := {
  max_pages : option Book;
  min_pages : option Book;
  avg_pages : Q;
  avg_rating : Q;
  status_labels : string;
  status_counts : string;
  rating_labels : string;
  rating_counts : string
}.

Definition stats (table : list Book) : response stats_context :=
  match first table (Models.order_by "-pages" objects_all),
        first table (Models.order_by "pages" objects_all) with
  | Some max_pages, Some min_pages =>
      let avg_pages := or_0 (Avg (pages <$> table)) in
      let avg_rating := or_0 (Avg (omap rating table)) in
      let status_data := status_data table in
      let status_labels := fst <$> status_data in
      let status_counts := snd <$> status_data in
      let rating_data := rating_data table in
      let rating_labels := (λ d, pretty d.1) <$> rating_data in
      let rating_counts := snd <$> rating_data in
      Render {| max_pages := max_pages;
                min_pages := min_pages;
                avg_pages := round2 avg_pages;
                avg_rating := round2 avg_rating;
                status_labels := json_dumps_strs status_labels;
                status_counts := json_dumps_ints status_counts;
                rating_labels := json_dumps_strs rating_labels;
                rating_counts := json_dumps_ints rating_counts |}
  | _, _ => ServerError
  end.

End Views.

(* ===================================================================== *)
(** ** forms.py *)
(* ===================================================================== *)

Module Forms.
Import Py.

(** *** django.forms: the state of a form while it is cleaned *)

Record form := {
  cleaned_data : gmap string value;
  _errors : gmap string (list string)
}.

(** [Form.add_error(field, messages)]: the messages are appended to the
    field's list and the field leaves [cleaned_data]. *)
Definition add_error (field : string) (messages : list string) (f : form) : form :=
  {| cleaned_data := delete field (cleaned_data f);
     _errors := <[field := (default [] (_errors f !! field) ++ messages)%list]> (_errors f) |}.

Record ValidationError := { code : string; message : string }.

(** The name under which the errors stand that belong to no field. *)
Definition NON_FIELD_ERRORS : string := "__all__".

Inductive validator :=
| MaxLengthValidator (limit_value : nat)
| ProhibitNullCharactersValidator
| MinValueValidator (limit_value : Z)
| MaxValueValidator (limit_value : Z).

Definition NUL : string := String (ascii_of_nat 0) EmptyString.

Definition run_validator (v : validator) (x : value) : option ValidationError :=
  match v, x with
  | MaxLengthValidator limit, VStr s =>
      if (limit <? String.length s)%nat
      then Some {| code := "max_length";
                   message := "Ensure this value has at most " +:+ pretty limit
                              +:+ " characters (it has "
                              +:+ pretty (String.length s) +:+ ")." |}
      else None
  | ProhibitNullCharactersValidator, VStr s =>
      if contains NUL s
      then Some {| code := "null_characters_not_allowed";
                   message := "Null characters are not allowed." |}
      else None
  | MinValueValidator limit, VInt z =>
      if z <? limit
      then Some {| code := "min_value";
                   message := "Ensure this value is greater than or equal to "
                              +:+ pretty limit +:+ "." |}
      else None
  | MaxValueValidator limit, VInt z =>
      if limit <? z
      then Some {| code := "max_value";
                   message := "Ensure this value is less than or equal to "
                              +:+ pretty limit +:+ "." |}
      else None
  | _, _ => None
  end.

Definition run_validators (vs : list validator) (x : value) : list ValidationError :=
  omap (λ v, run_validator v x) vs.

(** The classes of form fields the model's fields give.  A date field
    carries the reading of a text by [datetime.strptime] over its input
    formats, which the settings fix.  The fields of authors and of the cover
    image clean what is submitted against the Author table and the uploaded
    file; they are known by their [clean]: the messages of the
    [ValidationError] it raises or the value it returns, [None] for any
    other exception. *)
Inductive form_class :=
| CharField (max_length : nat)
| IntegerField
| DateField (strptime : string → option date)
| TypedChoiceField (choices : list string)
| ModelMultipleChoiceField (clean : value → option (list string + value))
| FileField (clean : value → option (list string + value)).

(** A model field as the form sees it: its form field, whether it may
    be left empty, and the validators the model declares for it. *)
Record field := {
  name : string;
  formfield : form_class;
  blank : bool;
  validators : list validator
}.

(** [widget.value_from_datadict(data, files, name)]: a file input reads
    the uploaded files, every other widget the submitted data. *)
Definition value_from_datadict (f : field) (data files : gmap string value) : value :=
  match formfield f with
  | FileField _ => dict_get files (name f)
  | _ => dict_get data (name f)
  end.

(** [value in self.empty_values] *)
Definition is_empty (v : value) : bool :=
  match v with
  | VNone => true
  | VStr s => String.eqb s ""
  | _ => false
  end.

Definition zero_pad (width : nat) (s : string) : string :=
  String.concat "" (replicate (width - String.length s) "0") +:+ s.

(** The number of digits past which Python refuses to convert between
    [int] and [str] ([sys.get_int_max_str_digits()], by default). *)
Definition int_max_str_digits : nat := 4300.

(** [str(value)]; [None] is the [ValueError] of an integer of too many
    digits. *)
Definition py_str (v : value) : option string :=
  match v with
  | VNone => Some "None"
  | VStr s => Some s
  | VInt z =>
      if (int_max_str_digits <? String.length (pretty (Z.abs z)))%nat then None
      else Some (pretty z)
  | VDate d => Some (zero_pad 4 (pretty (year d)) +:+ "-" +:+ zero_pad 2 (pretty (month d))
                     +:+ "-" +:+ zero_pad 2 (pretty (day d)))
  end.

Fixpoint count_digits (s : string) : nat :=
  match s with
  | EmptyString => 0
  | String c r => ((match Views.digit c with Some _ => 1 | None => 0 end) + count_digits r)%nat
  end.

(** [int(text)] with Python's limit on the number of digits; [None]
    is the [ValueError] of a text that is no number, or has too many
    digits. *)
Definition int_of_text (s : string) : option Z :=
  if (int_max_str_digits <? count_digits s)%nat then None else Views.py_int s.

Fixpoint all_space (s : string) : bool :=
  match s with
  | EmptyString => true
  | String c r => Views.is_space c && all_space r
  end.

(** Whether a text is of the form [0*\s*]. *)
Fixpoint zeros_spaces (s : string) : bool :=
  match s with
  | EmptyString => true
  | String c r => (Ascii.eqb c "0" && zeros_spaces r) || all_space s
  end.

(** [re_decimal.sub('', text)] with [re_decimal = r'\.0*\s*$']: a final
    point followed by zeros only is dropped. *)
Fixpoint re_decimal_sub (s : string) : string :=
  match s with
  | EmptyString => EmptyString
  | String c r =>
      if (Ascii.eqb c "." && zeros_spaces r)%bool then EmptyString
      else String c (re_decimal_sub r)
  end.

(** [Field.to_python] of the four classes that have one of their own.
    A submitted value is what [tests.py] and a request give: a text, or an
    integer or a date already.  [None] is an exception that is no
    [ValidationError]: [str] of too long an integer, and the
    [AttributeError] of [value.strip()] in a date field given an integer. *)
Definition to_python (c : form_class) (v : value) : option (ValidationError + value) :=
  match c with
  | CharField _ =>
      if is_empty v then Some (inr (VStr ""))
      else s ← py_str v; Some (inr (VStr (Views.strip s)))
  | TypedChoiceField _ =>
      if is_empty v then Some (inr (VStr ""))
      else s ← py_str v; Some (inr (VStr s))
  | IntegerField =>
      if is_empty v then Some (inr VNone)
      else Some (match py_str v ≫= (λ s, int_of_text (re_decimal_sub s)) with
                 | Some z => inr (VInt z)
                 | None => inl {| code := "invalid"; message := "Enter a whole number." |}
                 end)
  | DateField strptime =>
      if is_empty v then Some (inr VNone)
      else match v with
           | VDate _ => Some (inr v)
           | VStr s =>
               Some (match strptime (Views.strip s) with
                     | Some d => inr (VDate d)
                     | None => inl {| code := "invalid"; message := "Enter a valid date." |}
                     end)
           | _ => None
           end
  | ModelMultipleChoiceField _ | FileField _ => Some (inr v)
  end.

(** [Field.validate]: the required check, and for a choice field that
    the value is one of the choices. *)
Definition validate (f : field) (x : value) : option ValidationError :=
  if (is_empty x && negb (blank f))%bool
  then Some {| code := "required"; message := "This field is required." |}
  else match formfield f, x with
       | TypedChoiceField choices, VStr s =>
           if (negb (String.eqb s "") && negb (str_in s choices))%bool
           then Some {| code := "invalid_choice";
                        message := "Select a valid choice. " +:+ s
                                   +:+ " is not one of the available choices." |}
           else None
       | _, _ => None
       end.

(** The validators of the form field. *)
Definition form_validators (f : field) : list validator :=
  match formfield f with
  | CharField max_length =>
      [MaxLengthValidator max_length; ProhibitNullCharactersValidator]
  | _ => []
  end.

(** The validators of the model field, run by [Model.clean_fields] on
    a value the form field has accepted. *)
Definition model_validators (f : field) : list validator :=
  match formfield f with
  | CharField max_length => (validators f ++ [MaxLengthValidator max_length])%list
  | _ => validators f
  end.

(** The message shown for an error: the one configured for its code,
    else the error's own. *)
Definition shown (messages : gmap string string) (e : ValidationError) : string :=
  default (message e) (messages !! code e).

(** [Field.clean(value)]: [to_python], [validate], [run_validators];
    [inl] holds the messages of the [ValidationError] raised, [None] is any
    other exception. *)
Definition field_clean (messages : gmap string string) (f : field) (v : value)
  : option (list string + value) :=
  match formfield f with
  | ModelMultipleChoiceField clean | FileField clean => clean v
  | c =>
      r ← to_python c v;
      Some (match r with
            | inl e => inl [shown messages e]
            | inr x =>
                match validate f x with
                | Some e => inl [shown messages e]
                | None =>
                    match (if is_empty x then []
                           else run_validators (form_validators f) x) with
                    | [] => inr x
                    | errors => inl (shown messages <$> errors)
                    end
                end
            end)
  end.

Section ModelForm.

(** The fields of the form, and [Meta.error_messages]. *)
Variable fields : list field.
Variable error_messages : gmap string (gmap string string).

(** The form's own [clean()], [None] when an exception leaves it, and
    the model's, with the errors it raises by field. *)
Variable clean : form → option form.
Variable model_clean : gmap string value → gmap string (list string).

Definition messages_of (f : field) : gmap string string :=
  default ∅ (error_messages !! name f).

(** The body of the loop of [_clean_fields]: the field is cleaned; its
    value goes to [cleaned_data] or its errors to [add_error]. *)
Definition clean_field (data files : gmap string value) (st : form) (f : field)
  : option form :=
  r ← field_clean (messages_of f) f (value_from_datadict f data files);
  Some (match r with
        | inr x => {| cleaned_data := <[name f := x]> (cleaned_data st);
                      _errors := _errors st |}
        | inl errors => add_error (name f) errors st
        end).

Definition _clean_fields (data files : gmap string value) (st : form) : option form :=
  foldl (λ acc f, st ← acc; clean_field data files st f) (Some st) fields.

(** [_clean_form]: runs [clean()]. *)
Definition _clean_form (st : form) : option form := clean st.

(** The body of the loop of [Model.clean_fields(exclude)] on the
    instance built from [cleaned_data]; its errors reach the form through
    [_update_errors]. *)
Definition model_clean_field (exclude : gset string) (instance : gmap string value)
    (st : form) (f : field) : form :=
  if decide (name f ∈ exclude) then st
  else
    let raw := dict_get instance (name f) in
    if (blank f && is_empty raw)%bool then st
    else match run_validators (model_validators f) raw with
         | [] => st
         | errors => add_error (name f) (shown (messages_of f) <$> errors) st
         end.

(** [_update_errors]: the errors the model's [clean] raises are added
    name after name; [add_error] raises a [ValueError], [None] here, for a
    name that is neither a field of the form nor [NON_FIELD_ERRORS]. *)
Definition _update_errors (errors : gmap string (list string)) (st : form) : option form :=
  map_fold (λ field messages acc,
              st ← acc;
              if decide (field = NON_FIELD_ERRORS ∨ field ∈ name <$> fields)
              then Some (add_error field messages st)
              else None)
           (Some st) errors.

(** [_post_clean]: the model validates the fields that have no error
    yet, then runs its own [clean()]. *)
Definition _post_clean (st : form) : option form :=
  let exclude := dom (_errors st) in
  let instance := cleaned_data st in
  let st := foldl (model_clean_field exclude instance) st fields in
  _update_errors (model_clean instance) st.

(** [full_clean]; [None] stands for an exception that leaves it. *)
Definition full_clean (data files : gmap string value) : option form :=
  st ← _clean_fields data files {| cleaned_data := ∅; _errors := ∅ |};
  st ← _clean_form st;
  _post_clean st.

End ModelForm.

(** *** BookForm *)

(** [a < b]; [None] is the [TypeError] of values that do not compare. *)
Definition py_lt (a b : value) : option bool :=
  match a, b with
  | VDate x, VDate y => Some (date_lt x y)
  | VInt x, VInt y => Some (x <? y)
  | VStr x, VStr y => Some (String.ltb x y)
  | _, _ => None
  end.

Definition error_messages : gmap string (gmap string string) :=
  {[ "title" :=
       {[ "max_length" := "The title must be less than 50 characters long";
          "required" := "The title is mandatory" ]} ]}.

(** [BookForm.clean]: [super().clean()] changes nothing; the rule on
    the two dates adds its error to read_date.  [None] is the [TypeError]
    of a comparison between values that do not compare. *)
Definition clean (self : form) : option form :=
  let read_date := dict_get (cleaned_data self) "read_date" in
  let published_date := dict_get (cleaned_data self) "published_date" in
  if (truthy read_date && truthy published_date)%bool
  then before ← py_lt read_date published_date;
       Some (if before : bool
             then add_error "read_date"
                    ["The read date must be after the published date"] self
             else self)
  else Some self.

(** What the form takes from the parts of the project that are not
    among the sources: from [models.py] the codes a status may take and
    [Book.clean], with the errors it raises by field; from the settings the
    reading of a date by [datetime.strptime] over [DATE_INPUT_FORMATS]; and
    the [clean] of the form fields of authors, over the Author table, and of
    the cover image, over the uploaded file. *)
Record Project := {
  STATUS_CHOICES : list string;
  strptime : string → option date;
  Model_clean : gmap string value → gmap string (list string);
  authors_clean : value → option (list string + value);
  cover_image_clean : value → option (list string + value)
}.

(** Modelled from the spec: [Book.clean] in [models.py], the same
    rule on the two dates, raised for the field read_date. *)
Definition Book_clean (instance : gmap string value) : gmap string (list string) :=
  match dict_get instance "read_date", dict_get instance "published_date" with
  | VDate r, VDate p =>
      if date_lt r p
      then {[ "read_date" := ["The read date must be after the published date"] ]}
      else ∅
  | _, _ => ∅
  end.

Section Book.

Variable project : Project.

(** Modelled from the spec: the field [title] of [Book] in [models.py],
    which is not among the sources: text, required, at most 50 characters. *)
Definition title_field : field :=
  {| name := "title"; formfield := CharField 50; blank := false; validators := [] |}.

(** Modelled from the spec: the field [pages] of [models.py]: integer,
    required, at least 1. *)
Definition pages_field : field :=
  {| name := "pages"; formfield := IntegerField; blank := false;
     validators := [MinValueValidator 1] |}.

(** Modelled from the spec: the field [rating] of [models.py]: integer,
    optional, from 1 to 5. *)
Definition rating_field : field :=
  {| name := "rating"; formfield := IntegerField; blank := true;
     validators := [MinValueValidator 1; MaxValueValidator 5] |}.

(** Modelled from the spec: the field [status] of [models.py]: one of a
    fixed set of codes. *)
Definition status_field : field :=
  {| name := "status"; formfield := TypedChoiceField (STATUS_CHOICES project);
     blank := false; validators := [] |}.

(** Modelled from the spec: the field [published_date] of [models.py]:
    a date, required. *)
Definition published_date_field : field :=
  {| name := "published_date"; formfield := DateField (strptime project);
     blank := false; validators := [] |}.

(** Modelled from the spec: the field [read_date] of [models.py]: a
    date, optional. *)
Definition read_date_field : field :=
  {| name := "read_date"; formfield := DateField (strptime project);
     blank := true; validators := [] |}.

(** Modelled from the spec: the field [cover_image] of [models.py]: an
    uploaded file, optional, on which the model puts no rule. *)
Definition cover_image_field : field :=
  {| name := "cover_image"; formfield := FileField (cover_image_clean project);
     blank := true; validators := [] |}.

(** Modelled from the spec: the relation [authors] of [models.py]: zero
    or more authors, chosen by their keys; a relation is no column, and the
    model validates nothing of it. *)
Definition authors_field : field :=
  {| name := "authors"; formfield := ModelMultipleChoiceField (authors_clean project);
     blank := true; validators := [] |}.

(** Modelled from the spec: the fields of [Book] that the form cleans
    ([fields = '__all__']), in the order the spec lists them. *)
Definition Book_fields : list field :=
  [ title_field; pages_field; rating_field; status_field;
    published_date_field; read_date_field; cover_image_field; authors_field ].

(** [BookForm(data=data, files=files)] after [full_clean()]. *)
Definition BookForm (data files : gmap string value) : option form :=
  full_clean Book_fields error_messages clean (Model_clean project) data files.

(** [form.is_valid()]; [None] is an exception that leaves the cleaning. *)
Definition is_valid (data files : gmap string value) : option bool :=
  st ← BookForm data files; Some (bool_decide (_errors st = ∅)).

End Book.

End Forms.


(* ===================================================================== *)
(** ** urls.py and the class-based views of views.py *)
(* ===================================================================== *)

Module Urls.
Import Py Models Http Views Forms.

(** *** django.contrib.auth.mixins *)

Inductive access :=
| LoginRequiredMixin
| PermissionRequiredMixin (permission_required : string).

(** [AccessMixin.handle_no_permission]: forbidden for a logged-in
    user, a redirect to the login page otherwise. *)
Definition handle_no_permission (u : User) : Z :=
  if is_authenticated u then 403 else 302.

(** [dispatch] of the mixin: the check, then the view itself. *)
Definition access_dispatch (a : access) (u : User) (view : Z) : Z :=
  match a with
  | LoginRequiredMixin =>
      if negb (is_authenticated u) then handle_no_permission u else view
  | PermissionRequiredMixin perm =>
      if negb (has_perm u perm) then handle_no_permission u else view
  end.

(** *** django.views.generic *)

Inductive generic_view := CreateView | UpdateView | DeleteView | DetailView.

(** [get_object]: the row with that primary key, [None] standing for
    [Http404]. *)
Definition get_object (table : list Book) (pk : Z) : option Book :=
  head (List.filter (λ b, book_id b =? pk) table).

(** The status the generic view answers with: 404 when the row of an
    object view does not exist, 200 for a rendered page, 302 after a
    successful submission, 500 when an exception leaves the cleaning of the
    form. *)
Definition generic_dispatch (project : Project) (g : generic_view)
    (table : list Book) (request : HttpRequest) (pk : Z) : Z :=
  let form_view :=
    match method request with
    | Get | Head => 200
    | Post =>
        match is_valid project (POST request) (FILES request) with
        | Some true => 302
        | Some false => 200
        | None => 500
        end
    end in
  match g with
  | CreateView => form_view
  | UpdateView =>
      match get_object table pk with Some _ => form_view | None => 404 end
  | DeleteView =>
      match get_object table pk with
      | Some _ => match method request with Post => 302 | _ => 200 end
      | None => 404
      end
  | DetailView =>
      match method request with
      | Post => 405
      | _ => match get_object table pk with Some _ => 200 | None => 404 end
      end
  end.

(** *** The views *)

Inductive view :=
| BookCreate | BookUpdate | BookDelete | BookDetail
| v_book_list | v_stats | v_register | v_LoginView | v_LogoutView.

(** The bases of the four class-based views. *)
Definition bases (v : view) : option (access * generic_view) :=
  match v with
  | BookCreate => Some (LoginRequiredMixin, CreateView)
  | BookUpdate => Some (PermissionRequiredMixin "bookapp.change_book", UpdateView)
  | BookDelete => Some (PermissionRequiredMixin "bookapp.delete_book", DeleteView)
  | BookDetail => Some (LoginRequiredMixin, DetailView)
  | _ => None
  end.

(** *** urlpatterns *)

(** A route: an optional leading [<int:pk>], then a literal text. *)
Record route := { int_pk : bool; literal : string }.

Definition urlpatterns : list (route * view) :=
  [ ({| int_pk := false; literal := "form" |}, BookCreate);
    ({| int_pk := false; literal := "list" |}, v_book_list);
    ({| int_pk := true; literal := "/detail" |}, BookDetail);
    ({| int_pk := true; literal := "/edit" |}, BookUpdate);
    ({| int_pk := true; literal := "/delete" |}, BookDelete);
    ({| int_pk := false; literal := "stats" |}, v_stats);
    ({| int_pk := false; literal := "register" |}, v_register);
    ({| int_pk := false; literal := "login" |}, v_LoginView);
    ({| int_pk := false; literal := "logout" |}, v_LogoutView) ].

(** The leading decimal digits of a text and what follows them. *)
Fixpoint leading_int (acc : option Z) (s : string) : option Z * string :=
  match s with
  | String c r =>
      match digit c with
      | Some d => leading_int (Some (10 * default 0 acc + d)) r
      | None => (acc, s)
      end
  | EmptyString => (acc, s)
  end.

(** The [pk] a route extracts from a path (0 when it has none), or
    [None] when the route does not match. *)
Definition route_match (r : route) (p : string) : option Z :=
  if int_pk r
  then match leading_int None p with
       | (Some pk, rest) => if String.eqb rest (literal r) then Some pk else None
       | (None, _) => None
       end
  else if String.eqb p (literal r) then Some 0 else None.

(** The first pattern that matches. *)
Fixpoint resolve (patterns : list (route * view)) (p : string) : option (view * Z) :=
  match patterns with
  | [] => None
  | (r, v) :: rest =>
      match route_match r p with
      | Some pk => Some (v, pk)
      | None => resolve rest p
      end
  end.

(** The status code of the response to a request; [None] for the
    account views of [django.contrib.auth], which are not modelled. *)
Definition get_response (project : Project) (table : list Book)
    (request : HttpRequest) : option Z :=
  match resolve urlpatterns (path request) with
  | None => Some 404
  | Some (v, pk) =>
      match bases v with
      | Some (mixin, generic) =>
          Some (access_dispatch mixin (user request)
                  (generic_dispatch project generic table request pk))
      | None =>
          match v with
          | v_book_list =>
              Some (match book_list table request with
                    | Render _ => 200 | ServerError => 500 end)
          | v_stats =>
              Some (match stats table with Render _ => 200 | ServerError => 500 end)
          | _ => None
          end
      end
  end.

Global Instance view_eq_dec : EqDecision view.
Proof. solve_decision. Defined.

(** [reverse(name, args=[pk])], the view standing for the name of its
    route: the path that leads to it.  [None] is [NoReverseMatch]: a
    negative number fits no [<int:pk>]. *)
Definition reverse (v : view) (pk : Z) : option string :=
  rv ← head (List.filter (λ rv, bool_decide (rv.2 = v)) urlpatterns);
  if int_pk rv.1
  then if pk <? 0 then None else Some (pretty pk +:+ literal rv.1)
  else Some (literal rv.1).

End Urls.

(* ===================================================================== *)
(** ** The data of tests.py *)
(* ===================================================================== *)

Module Sample.
Import Py Models Http.

Definition book (pk : Z) (t : string) : Book :=
  {| book_id := pk; title := t; pages := 200; rating := None; status := "FI";
     published_date := Date 2020 1 1; read_date := None |}.

(** The book of [BookViewsTests.setUp], and more titles. *)
Definition test_book : Book := book 1 "Test Book".
Definition table : list Book := [book 1 "Test Book"; book 2 "a TEST"; book 3 "Other"].

Definition rated (pk r : Z) : Book :=
  {| book_id := pk; title := "Rated"; pages := 100 * pk; rating := Some r; status := "PE";
     published_date := Date 2019 1 1; read_date := None |}.

Definition admin_user : User :=
  AuthenticatedUser false
    {[ "bookapp.add_book"; "bookapp.change_book"; "bookapp.delete_book" ]}.
Definition regular_user : User := AuthenticatedUser false ∅.

Definition get (u : User) (p : string) (query : gmap string string) : HttpRequest :=
  {| method := Get; path := p; user := u; GET := query; POST := ∅; FILES := ∅ |}.

(** A form posted by [u] to the path [p]. *)
Definition post (u : User) (p : string) (data : gmap string value) : HttpRequest :=
  {| method := Post; path := p; user := u; GET := ∅; POST := data; FILES := ∅ |}.

(** [valid_data] of [BookFormTests.setUp]. *)
Definition valid_data : gmap string value :=
  {[ "title" := VStr "Valid Book"; "pages" := VInt 200; "status" := VStr "FI";
     "published_date" := VDate (Date 2020 1 1) ]}.

(** The same submission as a browser posts it: every value a text. *)
Definition valid_text : gmap string value :=
  {[ "title" := VStr "Valid Book"; "pages" := VStr "200"; "status" := VStr "FI";
     "published_date" := VStr "2020-01-01" ]}.

(** The status codes that occur in [tests.py]. *)
Definition STATUS_CHOICES : list string := ["PE"; "FI"].

Definition two_digits (a b : ascii) : option Z :=
  x ← Views.digit a; y ← Views.digit b; Some (10 * x + y).

(** The text before the first [sep] and the text after it. *)
Fixpoint split_at (sep : ascii) (s : string) : option (string * string) :=
  match s with
  | EmptyString => None
  | String c r =>
      if Ascii.eqb c sep then Some (EmptyString, r)
      else '(a, b) ← split_at sep r; Some (String c a, b)
  end.

(** ['%Y']: four digits; ['%y']: two digits, up to 68 of this century. *)
Definition read_Y (s : string) : option Z :=
  match s with
  | String y1 (String y2 (String y3 (String y4 EmptyString))) =>
      hi ← two_digits y1 y2; lo ← two_digits y3 y4; Some (100 * hi + lo)
  | _ => None
  end.

Definition read_y (s : string) : option Z :=
  match s with
  | String y1 (String y2 EmptyString) =>
      y ← two_digits y1 y2; Some (if y <=? 68 then 2000 + y else 1900 + y)
  | _ => None
  end.

(** ['%m']: [1[0-2]|0[1-9]|[1-9]]. *)
Definition read_m (s : string) : option Z :=
  match s with
  | String m1 EmptyString => x ← Views.digit m1; if x =? 0 then None else Some x
  | String m1 (String m2 EmptyString) =>
      x ← two_digits m1 m2; if (1 <=? x) && (x <=? 12) then Some x else None
  | _ => None
  end.

(** ['%d']: [3[01]|[12]\d|0[1-9]|[1-9]| [1-9]]. *)
Definition read_d (s : string) : option Z :=
  match s with
  | String d1 EmptyString => x ← Views.digit d1; if x =? 0 then None else Some x
  | String d1 (String d2 EmptyString) =>
      if Ascii.eqb d1 " "
      then x ← Views.digit d2; if x =? 0 then None else Some x
      else x ← two_digits d1 d2; if (1 <=? x) && (x <=? 31) then Some x else None
  | _ => None
  end.

Definition is_leap (y : Z) : bool :=
  (y `mod` 4 =? 0) && (negb (y `mod` 100 =? 0) || (y `mod` 400 =? 0)).

Definition days_in_month (y m : Z) : Z :=
  if m =? 2 then (if is_leap y then 29 else 28)
  else if (m =? 4) || (m =? 6) || (m =? 9) || (m =? 11) then 30
  else 31.

(** [datetime.date(y, m, d)]; [None] is its [ValueError]. *)
Definition make_date (y m d : Z) : option date :=
  if (1 <=? y) && (d <=? days_in_month y m) then Some (Date y m d) else None.

(** [datetime.strptime(text, '%Y-%m-%d').date()] *)
Definition strptime_iso (s : string) : option date :=
  '(y, rest) ← split_at "-" s; '(m, d) ← split_at "-" rest;
  y ← read_Y y; m ← read_m m; d ← read_d d; make_date y m d.

(** [datetime.strptime(text, '%m/%d/%Y').date()], and the same with
    ['%y'] for the year. *)
Definition strptime_us (read_year : string → option Z) (s : string) : option date :=
  '(m, rest) ← split_at "/" s; '(d, y) ← split_at "/" rest;
  y ← read_year y; m ← read_m m; d ← read_d d; make_date y m d.

(** The reading of a date in a project whose [DATE_INPUT_FORMATS] are
    ['%Y-%m-%d'], ['%m/%d/%Y'] and ['%m/%d/%y']: the first format that reads
    the text gives the date. *)
Definition strptime (s : string) : option date :=
  match strptime_iso s with
  | Some d => Some d
  | None =>
      match strptime_us read_Y s with
      | Some d => Some d
      | None => strptime_us read_y s
      end
  end.

(** [ModelMultipleChoiceField.clean] on a value that is no list: no
    author when the value is false, else the error of a value that is no
    list of keys. *)
Definition authors_clean (v : value) : option (list string + value) :=
  Some (if truthy v then inl ["Enter a list of values."] else inr VNone).

(** [FileField.clean] on a value that is no uploaded file: no file
    when the value is empty, else the error of a value that is no file. *)
Definition cover_image_clean (v : value) : option (list string + value) :=
  Some (if Forms.is_empty v then inr VNone
        else inl ["No file was submitted. Check the encoding type on the form."]).

(** The project of [tests.py]: its model reports the rule on the two
    dates, as [BookModelTests] has it. *)
Definition project : Forms.Project :=
  {| Forms.STATUS_CHOICES := STATUS_CHOICES;
     Forms.strptime := strptime;
     Forms.Model_clean := Forms.Book_clean;
     Forms.authors_clean := authors_clean;
     Forms.cover_image_clean := cover_image_clean |}.

(** The same project with a model that has no [clean] of its own: what
    the form reports there, it reports by itself. *)
Definition project_without_model_clean : Forms.Project :=
  {| Forms.STATUS_CHOICES := STATUS_CHOICES;
     Forms.strptime := strptime;
     Forms.Model_clean := λ _, ∅;
     Forms.authors_clean := authors_clean;
     Forms.cover_image_clean := cover_image_clean |}.

End Sample.

(* ===================================================================== *)
(** ** Notions the properties are stated with *)
(* ===================================================================== *)

Module Spec.
Import Py Forms.

(** The date a date field of the form reads in what is submitted for
    it: the date itself, or the one its text is read as; [None] when there
    is none. *)
Definition date_read (project : Project) (v : value) : option date :=
  match v with
  | VDate d => Some d
  | VStr s => if String.eqb s "" then None else strptime project (Views.strip s)
  | _ => None
  end.

(** The two dates break the rule: both are given and the read date is
    before the published date. *)
Definition read_before_published (project : Project) (data : gmap string value) : bool :=
  match date_read project (dict_get data "read_date"),
        date_read project (dict_get data "published_date") with
  | Some r, Some p => date_lt r p
  | _, _ => false
  end.

(** The messages one field of the form gives rise to, looked at on its
    own: those of the form field; else, for read_date, that of the rule on
    the two dates; else those of the model's validators; [None] when the
    field gives rise to none. *)
Definition reported (project : Project) (data files : gmap string value) (f : field)
  : option (list string) :=
  match field_clean (messages_of error_messages f) f (value_from_datadict f data files) with
  | Some (inl errors) => Some errors
  | Some (inr x) =>
      if (String.eqb (name f) "read_date" && read_before_published project data)%bool
      then Some ["The read date must be after the published date"]
      else if (blank f && is_empty x)%bool then None
      else match run_validators (model_validators f) x with
           | [] => None
           | errors => Some (shown (messages_of error_messages f) <$> errors)
           end
  | None => None
  end.

(** A value that can be written out as a text: any but an integer of
    more digits than Python converts. *)
Definition writable (v : value) : bool :=
  match v with
  | VInt z => (String.length (pretty (Z.abs z)) <=? int_max_str_digits)%nat
  | _ => true
  end.

(** A candidate record: under title and status a value that can be
    written out as a text, under the two dates no integer, and authors and
    a cover image that the project's fields clean without an exception of
    their own.  The submissions of [tests.py] are such, typed or made of
    texts. *)
Definition candidate (project : Project) (data files : gmap string value) : bool :=
  writable (dict_get data "title")
  && writable (dict_get data "status")
  && match dict_get data "published_date" with VInt _ => false | _ => true end
  && match dict_get data "read_date" with VInt _ => false | _ => true end
  && bool_decide (is_Some (authors_clean project (dict_get data "authors")))
  && bool_decide (is_Some (cover_image_clean project (dict_get files "cover_image"))).

(** The model's [clean] reports nothing but the rule on the two dates
    as the spec has it. *)
Definition model_rule_only (project : Project) : Prop :=
  ∀ instance, Model_clean project instance ⊆ Book_clean instance.

(** The model's [clean] reports under names the form knows: those of
    its fields, and the one of the errors that belong to no field. *)
Definition model_reports_on_fields (project : Project) : Prop :=
  ∀ instance k,
    is_Some (Model_clean project instance !! k) →
    k = NON_FIELD_ERRORS ∨ k ∈ name <$> Book_fields project.

(** The title as the form takes it: empty for an empty value, else the
    text of the value without the white space around it. *)
Definition title_text (data : gmap string value) : option string :=
  let v := dict_get data "title" in
  if is_empty v then Some "" else Views.strip <$> py_str v.



(** NULL first, then the values in ascending order. *)
Definition null_first {A} (le : A → A → Prop) (x y : option A) : Prop :=
  match x, y with
  | None, _ => True
  | Some _, None => False
  | Some a, Some b => le a b
  end.

(** The date [a] is not after [b]. *)
Definition not_after (a b : date) : Prop :=
  year a < year b
  ∨ (year a = year b ∧ (month a < month b ∨ (month a = month b ∧ day a ≤ day b))).

(** What each of the ten sort keys asks of two rows that follow each
    other, the first before the second. *)
Definition in_order (key : string) (a b : Models.Book) : Prop :=
  if decide (key = "title") then (Models.title a ≤ Models.title b)%string
  else if decide (key = "-title") then (Models.title b ≤ Models.title a)%string
  else if decide (key = "pages") then Models.pages a ≤ Models.pages b
  else if decide (key = "-pages") then Models.pages b ≤ Models.pages a
  else if decide (key = "rating") then null_first Z.le (Models.rating a) (Models.rating b)
  else if decide (key = "-rating") then null_first Z.le (Models.rating b) (Models.rating a)
  else if decide (key = "status") then (Models.status a ≤ Models.status b)%string
  else if decide (key = "-status") then (Models.status b ≤ Models.status a)%string
  else if decide (key = "published_date")
       then not_after (Models.published_date a) (Models.published_date b)
  else if decide (key = "-published_date")
       then not_after (Models.published_date b) (Models.published_date a)
  else True.

(** A field has a value or messages, never both; the fields [flds] all
    have one of the two. *)
Definition settled (flds : list field) (st : form) : Prop :=
  (∀ k, is_Some (cleaned_data st !! k) → _errors st !! k = None) ∧
  (∀ f, f ∈ flds → is_Some (cleaned_data st !! name f) ∨ is_Some (_errors st !! name f)).

(** The same request for another page: [?page=text]. *)
Definition with_page (request : Http.HttpRequest) (text : string) : Http.HttpRequest :=
  {| Http.method := Http.method request;
     Http.path := Http.path request;
     Http.user := Http.user request;
     Http.GET := <["page" := text]> (Http.GET request);
     Http.POST := Http.POST request;
     Http.FILES := Http.FILES request |}.

End Spec.

(* ===================================================================== *)
(** * Properties *)
(* ===================================================================== *)

Import Py Models Http Views Forms Urls.

(** ** Texts and sorting *)

Lemma str_in_elem_of (x : string) (xs : list string) :
  str_in x xs = true ↔ x ∈ xs.
Proof.
  unfold str_in. rewrite existsb_exists. split.
  - intros (y & Hy & Heq). apply String.eqb_eq in Heq. subst.
    by apply list_elem_of_In.
  - intros Hx. exists x. split; [by apply list_elem_of_In | apply String.eqb_refl].
Qed.

Lemma app_String (c : ascii) (s t : string) : String c s +:+ t = String c (s +:+ t).
Proof. done. Qed.


Lemma contains_unfold (n h : string) :
  contains n h
  = (String.prefix n h
     || match h with EmptyString => false | String _ r => contains n r end).
Proof. by destruct h. Qed.


Lemma Sorted_weaken {A} (R S : relation A) (l : list A) :
  (∀ a b, R a b → S a b) → Sorted R l → Sorted S l.
Proof.
  intros HRS. induction 1 as [|x l Hl IH Hhd]; constructor; [done |].
  destruct Hhd; constructor; auto.
Qed.

Section sort_by.
Context {A : Type} (leb : A → A → bool).

Lemma insert_by_Permutation (x : A) (l : list A) : insert_by leb x l ≡ₚ x :: l.
Proof.
  induction l as [|y l IH]; simpl; [done |].
  destruct (leb x y); [done |]. rewrite IH. apply Permutation_swap.
Qed.

Lemma sort_by_Permutation (l : list A) : sort_by leb l ≡ₚ l.
Proof.
  induction l as [|x l IH]; simpl; [done |].
  by rewrite insert_by_Permutation, IH.
Qed.

Hypothesis leb_total : ∀ a b, leb a b = false → leb b a = true.

Lemma insert_by_Sorted (x : A) (l : list A) :
  Sorted (λ a b, leb a b = true) l → Sorted (λ a b, leb a b = true) (insert_by leb x l).
Proof.
  induction 1 as [|y l Hl IH Hhd]; simpl.
  - by repeat constructor.
  - destruct (leb x y) eqn:Hxy.
    + constructor; [by constructor | by constructor].
    + constructor; [done |].
      destruct Hhd as [|z l Hyz]; simpl.
      * constructor. by apply leb_total.
      * destruct (leb x z); constructor; auto.
Qed.

Lemma sort_by_Sorted (l : list A) : Sorted (λ a b, leb a b = true) (sort_by leb l).
Proof.
  induction l as [|x l IH]; simpl; [constructor | by apply insert_by_Sorted].
Qed.
End sort_by.

(** ** The list view *)

Lemma book_list_order_by_valid (request : HttpRequest) :
  book_list_order_by request ∈ VALID_ORDER_FIELDS.
Proof.
  unfold book_list_order_by.
  destruct (str_in _ VALID_ORDER_FIELDS) eqn:Hin; simpl.
  - by apply str_in_elem_of.
  - set_solver.
Qed.

Lemma book_list_order_by_fallback (request : HttpRequest) :
  GET_get request "order_by" "title" ∉ VALID_ORDER_FIELDS →
  book_list_order_by request = "title".
Proof.
  intros Hnot. unfold book_list_order_by.
  destruct (str_in _ VALID_ORDER_FIELDS) eqn:Hin; simpl; [|done].
  by apply str_in_elem_of in Hin.
Qed.

Lemma valid_order_field_parses (key : string) :
  key ∈ VALID_ORDER_FIELDS → is_Some (parse_ordering key).
Proof.
  unfold VALID_ORDER_FIELDS. rewrite !elem_of_cons, elem_of_nil.
  intros H. repeat (destruct H as [-> | H]; [by eexists |]). done.
Qed.

Lemma book_list_books_order_by (request : HttpRequest) :
  qs_order_by (book_list_books request) = Some (book_list_order_by request).
Proof. done. Qed.

Lemma book_list_books_filter (request : HttpRequest) :
  qs_title_icontains (book_list_books request)
  = (if String.eqb (GET_get request "title" "") "" then None
     else Some (GET_get request "title" "")).
Proof. unfold book_list_books. by destruct (String.eqb _ "") eqn:?. Qed.

Lemma book_list_evaluates (table : list Book) (request : HttpRequest) :
  ∃ o, parse_ordering (book_list_order_by request) = Some o ∧
       evaluate table (book_list_books request)
       = Some (sort_by (ordering_leb o)
                 (List.filter (where_clause (book_list_books request)) table)).
Proof.
  destruct (valid_order_field_parses _ (book_list_order_by_valid request)) as [o Ho].
  exists o. split; [done |].
  unfold evaluate. rewrite book_list_books_order_by. simpl. by rewrite Ho.
Qed.

Lemma book_list_renders (table : list Book) (request : HttpRequest) :
  ∃ rows, evaluate table (book_list_books request) = Some rows ∧
    book_list table request
    = Render {| page_obj := get_page {| object_list := rows; per_page := 5 |}
                              (GET request !! "page");
                ctx_title_filter := GET_get request "title" "";
                ctx_order_by := book_list_order_by request |}.
Proof.
  destruct (book_list_evaluates table request) as (o & _ & Hev).
  eexists. split; [done |]. unfold book_list. by rewrite Hev.
Qed.

Global Instance title_le_trans : Transitive (λ a b : Book, (title a ≤ title b)%string).
Proof. intros a b c Hab Hbc. by transitivity (title b). Qed.

(** C3: whatever sort key the request asks for, the list query is built
    and evaluated without error and the key it orders by is one of the ten
    values of [VALID_ORDER_FIELDS]; when the requested key is not one of
    them the query orders by "title", and the rows come out in ascending
    order of their titles. *)
Theorem book_list_orders_by_whitelisted_key (table : list Book) (request : HttpRequest) :
  ∃ key rows ctx,
    qs_order_by (book_list_books request) = Some key ∧
    key ∈ VALID_ORDER_FIELDS ∧
    evaluate table (book_list_books request) = Some rows ∧
    book_list table request = Render ctx ∧
    (GET_get request "order_by" "title" ∉ VALID_ORDER_FIELDS →
     key = "title" ∧ StronglySorted (λ a b, (title a ≤ title b)%string) rows).
Proof.
  destruct (book_list_renders table request) as (rows & Hev & Hctx).
  exists (book_list_order_by request), rows. eexists.
  split; [done |]. split; [apply book_list_order_by_valid |].
  split; [done |]. split; [done |].
  intros Hnot. pose proof (book_list_order_by_fallback request Hnot) as Hkey.
  split; [done |].
  destruct (book_list_evaluates table request) as (o & Ho & Hev').
  rewrite Hev in Hev'. injection Hev' as ->.
  rewrite Hkey in Ho. vm_compute in Ho. injection Ho as <-.
  apply Sorted_StronglySorted; [apply _ |].
  eapply Sorted_weaken; [| apply sort_by_Sorted].
  - intros a b Hab. apply Is_true_true, Hab.
  - intros a b. unfold ordering_leb. simpl. intros Hab.
    destruct (String.leb_total (title a) (title b)) as [H | H]; [congruence | done].
Qed.

Lemma book_list_orders_by_whitelisted_key_witness :
  ∃ rows,
    evaluate Sample.table
      (book_list_books (Sample.get AnonymousUser "list" {[ "order_by" := "bogus_value" ]}))
    = Some rows ∧
    StronglySorted (λ a b, (title a ≤ title b)%string) rows.
Proof.
  destruct (book_list_orders_by_whitelisted_key Sample.table
              (Sample.get AnonymousUser "list" {[ "order_by" := "bogus_value" ]}))
    as (key & rows & ctx & _ & _ & Hev & _ & Hsorted).
  exists rows. split; [exact Hev |]. apply Hsorted.
  intros Hin. apply str_in_elem_of in Hin. vm_compute in Hin. discriminate.
Defined.

(** C9: the [order_by] entry of the context the list view renders is
    always one of the ten values of [VALID_ORDER_FIELDS]; when the query
    parameter is not one of them the entry is "title" and not the
    parameter. *)
Theorem book_list_echoes_whitelisted_key (table : list Book) (request : HttpRequest) :
  ∃ ctx,
    book_list table request = Render ctx ∧
    ctx_order_by ctx ∈ VALID_ORDER_FIELDS ∧
    (GET_get request "order_by" "title" ∉ VALID_ORDER_FIELDS →
     ctx_order_by ctx = "title" ∧
     ctx_order_by ctx ≠ GET_get request "order_by" "title").
Proof.
  destruct (book_list_renders table request) as (rows & _ & Hctx).
  eexists. split; [exact Hctx |]. simpl.
  split; [apply book_list_order_by_valid |].
  intros Hnot. split; [by apply book_list_order_by_fallback |].
  intros Heq. apply Hnot. rewrite <- Heq. apply book_list_order_by_valid.
Qed.

Lemma book_list_echoes_whitelisted_key_witness :
  ∃ ctx,
    book_list Sample.table
      (Sample.get AnonymousUser "list" {[ "order_by" := "bogus_value" ]}) = Render ctx ∧
    ctx_order_by ctx = "title".
Proof.
  destruct (book_list_echoes_whitelisted_key Sample.table
              (Sample.get AnonymousUser "list" {[ "order_by" := "bogus_value" ]}))
    as (ctx & Hctx & _ & Hfallback).
  exists ctx. split; [exact Hctx |]. apply Hfallback.
  intros Hin. apply str_in_elem_of in Hin. vm_compute in Hin. discriminate.
Defined.

Lemma filter_true {A} (l : list A) : List.filter (λ _, true) l = l.
Proof. induction l; simpl; congruence. Qed.




Lemma chunks_cover {A} (n m : nat) (l : list A) :
  (length l ≤ m * n)%nat →
  mjoin ((λ k, take n (drop ((k - 1) * n) l)) <$> seq 1 m) = l.
Proof.
  revert l. induction m as [|m IH]; intros l Hlen.
  - destruct l; [done | simpl in Hlen; lia].
  - change (seq 1 (S m)) with (1%nat :: seq 2 m).
    rewrite fmap_cons, <- fmap_S_seq, <- list_fmap_compose.
    transitivity (take n l ++ drop n l)%list; [| apply take_drop].
    change (mjoin (?x :: ?r)) with (x ++ mjoin r)%list. f_equal.
    rewrite <- (IH (drop n l)) at 1 by (rewrite length_drop; lia).
    f_equal. apply list_fmap_ext. intros i k Hk. simpl.
    apply lookup_seq in Hk as [-> _]. rewrite drop_drop. do 2 f_equal. lia.
Qed.

(** The pages of the paginator, one after the other, are the rows of the
    query: paging drops and repeats nothing. *)
Lemma pages_cover (rows : list Book) (n : nat) :
  (0 < n)%nat →
  mjoin (page {| object_list := rows; per_page := n |}
           <$> seq 1 (num_pages {| object_list := rows; per_page := n |})) = rows.
Proof.
  intros Hn. unfold page, num_pages. simpl. apply chunks_cover.
  pose proof (Nat.div_mod (length rows `max` 1 + n - 1) n ltac:(lia)).
  pose proof (Nat.mod_upper_bound (length rows `max` 1 + n - 1) n ltac:(lia)).
  rewrite (Nat.max_comm 1). nia.
Qed.

Example rating_data_sample :
  rating_data [Sample.rated 1 5; Sample.rated 2 3; Sample.test_book; Sample.rated 4 5]
  = [(3, 1); (5, 2)].
Proof. reflexivity. Qed.

(** ** The statistics view *)

Lemma stats_renders (table : list Book) :
  stats table
  = Render {| max_pages := head (sort_by (ordering_leb (true, c_pages)) table);
              min_pages := head (sort_by (ordering_leb (false, c_pages)) table);
              avg_pages := round2 (or_0 (Avg (pages <$> table)));
              avg_rating := round2 (or_0 (Avg (omap rating table)));
              status_labels := json_dumps_strs ((status_data table).*1);
              status_counts := json_dumps_ints ((status_data table).*2);
              rating_labels := json_dumps_strs ((λ d, pretty d.1) <$> rating_data table);
              rating_counts := json_dumps_ints ((rating_data table).*2) |}.
Proof.
  unfold stats, first, evaluate. simpl.
  change (where_clause _) with (λ _ : Book, true). by rewrite filter_true.
Qed.

(** C10: on an empty table the statistics view renders; its max-pages and
    min-pages records are [None] and the four label and count sequences are
    empty. *)
Theorem stats_empty_table :
  ∃ ctx,
    stats [] = Render ctx ∧
    max_pages ctx = None ∧ min_pages ctx = None ∧
    status_data [] = [] ∧ rating_data [] = [] ∧
    status_labels ctx = json_dumps_strs [] ∧ status_counts ctx = json_dumps_ints [] ∧
    rating_labels ctx = json_dumps_strs [] ∧ rating_counts ctx = json_dumps_ints [] ∧
    json_dumps_strs [] = "[]" ∧ json_dumps_ints [] = "[]".
Proof. eexists. by repeat split. Qed.








Lemma elem_of_values_count `{EqDecision K} (keys : list K) (k : K) (c : Z) :
  (k, c) ∈ values_count keys
  ↔ k ∈ keys ∧ c = Z.of_nat (length (filter (λ x, x = k) keys)).
Proof.
  unfold values_count. rewrite list_elem_of_fmap. split.
  - intros (k' & Heq & Hk'). simplify_eq. split; [by apply elem_of_remove_dups | done].
  - intros [Hk ->]. exists k. by rewrite elem_of_remove_dups.
Qed.

Lemma values_count_keys `{EqDecision K} (keys : list K) :
  (values_count keys).*1 = remove_dups keys.
Proof.
  unfold values_count. generalize (remove_dups keys). intros l.
  induction l as [|k l IH]; [done |]. rewrite !fmap_cons. simpl. by f_equal.
Qed.

Lemma count_rating (table : list Book) (r : Z) :
  length (filter (λ x, x = r) (omap rating table))
  = length (filter (λ b, rating b = Some r) table).
Proof.
  induction table as [|b table IH]; [done |]. simpl.
  rewrite (filter_cons (λ b, rating b = Some r)).
  destruct (rating b) as [x|] eqn:Hb; simpl.
  - rewrite filter_cons.
    destruct (decide (x = r)), (decide (Some x = Some r));
      simplify_eq; simpl; first [exact IH | f_equal; exact IH].
  - destruct (decide (None = Some r)); [done | exact IH].
Qed.

Lemma StronglySorted_le_lt (l : list Z) :
  StronglySorted Z.le l → NoDup l → StronglySorted Z.lt l.
Proof.
  induction 1 as [|x l Hl IH Hall]; intros Hnd; constructor;
    apply NoDup_cons in Hnd as [Hx Hnd]; [by apply IH |].
  apply Forall_forall. intros y Hy.
  rewrite Forall_forall in Hall. specialize (Hall y Hy).
  assert (x ≠ y) by (intros ->; by apply Hx, list_elem_of_In). lia.
Qed.

(** C7: the rating distribution of the statistics view lists the ratings
    in strictly ascending order, one entry for each rating value that some
    row carries, with the number of rows that carry that value; a row with
    no rating is counted in no entry.  The labels and counts rendered are
    the two columns of that list. *)
Theorem stats_rating_distribution (table : list Book) :
  StronglySorted Z.lt (rating_data table).*1 ∧
  (∀ r c, (r, c) ∈ rating_data table ↔
          (∃ b, b ∈ table ∧ rating b = Some r) ∧
          c = Z.of_nat (length (filter (λ b, rating b = Some r) table))) ∧
  ∃ ctx,
    stats table = Render ctx ∧
    rating_labels ctx = json_dumps_strs (pretty <$> (rating_data table).*1) ∧
    rating_counts ctx = json_dumps_ints (rating_data table).*2.
Proof.
  assert (Hperm : rating_data table ≡ₚ values_count (omap rating table))
    by apply sort_by_Permutation.
  split; [| split].
  - apply StronglySorted_le_lt.
    + apply Sorted_StronglySorted; [apply _ |].
      apply (Sorted_fmap fst (λ a b : Z * Z, (a.1 <=? b.1) = true) Z.le);
        [intros a b Hab; lia |].
      apply sort_by_Sorted. intros a b. lia.
    + rewrite Hperm, values_count_keys. apply NoDup_remove_dups.
  - intros r c. rewrite Hperm, elem_of_values_count, list_elem_of_omap, count_rating.
    done.
  - eexists. split; [apply stats_renders |]. simpl.
    by rewrite <- list_fmap_compose.
Qed.

(** ** The form *)

Lemma add_error_errors (n k : string) (m : list string) (st : form) :
  _errors (add_error n m st) !! k
  = if decide (n = k) then Some (default [] (_errors st !! n) ++ m)%list
    else _errors st !! k.
Proof.
  unfold add_error. simpl. case_decide as Hnk.
  - subst. by rewrite lookup_insert_eq.
  - by rewrite lookup_insert_ne.
Qed.

Lemma add_error_cleaned (n k : string) (m : list string) (st : form) :
  cleaned_data (add_error n m st) !! k
  = if decide (n = k) then None else cleaned_data st !! k.
Proof.
  unfold add_error. simpl. case_decide as Hnk.
  - subst. by rewrite lookup_delete_eq.
  - by rewrite lookup_delete_ne.
Qed.

Lemma add_error_keeps_errors (n k : string) (m : list string) (st : form) :
  is_Some (_errors st !! k) → is_Some (_errors (add_error n m st) !! k).
Proof. intros Hk. rewrite add_error_errors. case_decide; [by eexists | done]. Qed.

Section cleaning.
Context (E : gmap string (gmap string string)).

Lemma clean_fields_raised flds data files :
  foldl (λ acc f, st ← acc; clean_field E data files st f) None flds = None.
Proof. induction flds as [|f flds IH]; [done | exact IH]. Qed.

Lemma clean_fields_cons flds f data files st :
  _clean_fields (f :: flds) E data files st
  = clean_field E data files st f ≫= _clean_fields flds E data files.
Proof.
  unfold _clean_fields. simpl.
  destruct (clean_field E data files st f) as [st'|]; [done |].
  apply clean_fields_raised.
Qed.

Lemma clean_field_other data files st st' f k :
  clean_field E data files st f = Some st' → name f ≠ k →
  cleaned_data st' !! k = cleaned_data st !! k ∧ _errors st' !! k = _errors st !! k.
Proof.
  unfold clean_field.
  destruct (field_clean _ f _) as [[errors | x] |]; simpl; [| | done];
    intros [= <-] Hne.
  - rewrite add_error_cleaned, add_error_errors. by rewrite !decide_False.
  - simpl. by rewrite lookup_insert_ne.
Qed.

Lemma clean_fields_other flds data files st st' k :
  _clean_fields flds E data files st = Some st' → k ∉ name <$> flds →
  cleaned_data st' !! k = cleaned_data st !! k ∧ _errors st' !! k = _errors st !! k.
Proof.
  revert st. induction flds as [|f flds IH]; intros st Hst Hk.
  { by injection Hst as <-. }
  rewrite fmap_cons, not_elem_of_cons in Hk. destruct Hk as [Hne Hk].
  rewrite clean_fields_cons in Hst.
  destruct (clean_field E data files st f) as [st1|] eqn:Hf; [| done]. simpl in Hst.
  destruct (IH st1 Hst Hk) as [-> ->].
  apply (clean_field_other data files st st1 f k Hf). congruence.
Qed.

Lemma clean_fields_at flds data files st st' f :
  NoDup (name <$> flds) → f ∈ flds →
  _clean_fields flds E data files st = Some st' →
  cleaned_data st' !! name f
  = match field_clean (messages_of E f) f (value_from_datadict f data files) with
    | Some (inr x) => Some x
    | _ => None
    end ∧
  _errors st' !! name f
  = match field_clean (messages_of E f) f (value_from_datadict f data files) with
    | Some (inl errors) => Some (default [] (_errors st !! name f) ++ errors)%list
    | _ => _errors st !! name f
    end.
Proof.
  revert st. induction flds as [|g flds IH]; intros st Hnd Hf Hst.
  { by apply elem_of_nil in Hf. }
  rewrite fmap_cons in Hnd. apply NoDup_cons in Hnd as [Hg Hnd].
  rewrite clean_fields_cons in Hst.
  destruct (clean_field E data files st g) as [st1|] eqn:Hst1; [| done]. simpl in Hst.
  apply elem_of_cons in Hf as [-> | Hf].
  - destruct (clean_fields_other flds data files st1 st' _ Hst Hg) as [-> ->].
    revert Hst1. unfold clean_field.
    destruct (field_clean _ g _) as [[errors | x] |]; simpl; [| | done]; intros [= <-].
    + rewrite add_error_cleaned, add_error_errors. by rewrite !decide_True.
    + simpl. by rewrite lookup_insert_eq.
  - destruct (IH st1 Hnd Hf Hst) as [-> ->].
    assert (name g ≠ name f) as Hne.
    { intros Heq. apply Hg. rewrite Heq. by apply list_elem_of_fmap_2. }
    destruct (clean_field_other data files st st1 g (name f) Hst1 Hne) as [_ ->].
    done.
Qed.

Lemma clean_fields_Some flds data files st :
  (∀ f, f ∈ flds →
        is_Some (field_clean (messages_of E f) f (value_from_datadict f data files))) →
  is_Some (_clean_fields flds E data files st).
Proof.
  revert st. induction flds as [|f flds IH]; intros st Hall; [by eexists |].
  rewrite clean_fields_cons.
  destruct (Hall f ltac:(apply list_elem_of_here)) as [r Hr].
  unfold clean_field at 1. rewrite Hr. simpl.
  apply IH. intros g Hg. apply Hall. by apply list_elem_of_further.
Qed.

Lemma clean_fields_Some_inv flds data files st st' f :
  _clean_fields flds E data files st = Some st' → f ∈ flds →
  is_Some (field_clean (messages_of E f) f (value_from_datadict f data files)).
Proof.
  revert st. induction flds as [|g flds IH]; intros st Hst Hf.
  { by apply elem_of_nil in Hf. }
  rewrite clean_fields_cons in Hst.
  destruct (clean_field E data files st g) as [st1|] eqn:Hst1; [| done]. simpl in Hst.
  apply elem_of_cons in Hf as [-> | Hf]; [| by apply (IH st1)].
  revert Hst1. unfold clean_field. by destruct (field_clean _ g _).
Qed.

Lemma model_clean_field_other exclude instance st f k :
  name f ≠ k →
  _errors (model_clean_field E exclude instance st f) !! k = _errors st !! k.
Proof.
  intros Hne. unfold model_clean_field. repeat case_match; try done.
  rewrite add_error_errors. by rewrite decide_False.
Qed.

Lemma model_clean_fields_other flds exclude instance st k :
  k ∉ name <$> flds →
  _errors (foldl (model_clean_field E exclude instance) st flds) !! k = _errors st !! k.
Proof.
  revert st. induction flds as [|f flds IH]; intros st Hk; [done |].
  rewrite fmap_cons, not_elem_of_cons in Hk. destruct Hk as [Hne Hk].
  simpl. rewrite (IH _ Hk). by apply model_clean_field_other.
Qed.

Lemma model_clean_fields_at flds exclude instance st f :
  NoDup (name <$> flds) → f ∈ flds →
  _errors (foldl (model_clean_field E exclude instance) st flds) !! name f
  = _errors (model_clean_field E exclude instance st f) !! name f.
Proof.
  revert st. induction flds as [|g flds IH]; intros st Hnd Hf.
  { by apply elem_of_nil in Hf. }
  rewrite fmap_cons in Hnd. apply NoDup_cons in Hnd as [Hg Hnd].
  simpl. apply elem_of_cons in Hf as [-> | Hf].
  - by rewrite (model_clean_fields_other flds exclude instance _ _ Hg).
  - rewrite (IH _ Hnd Hf).
    assert (name g ≠ name f) as Hne.
    { intros Heq. apply Hg. rewrite Heq. by apply list_elem_of_fmap_2. }
    unfold model_clean_field at 1 3. repeat case_match; try done.
    all: rewrite ?add_error_errors, ?decide_True, ?decide_False by done.
    all: rewrite ?(model_clean_field_other _ _ _ g (name f) Hne); try done.
Qed.

Lemma model_clean_fields_keep_errors flds exclude instance st k :
  is_Some (_errors st !! k) →
  is_Some (_errors (foldl (model_clean_field E exclude instance) st flds) !! k).
Proof.
  revert st. induction flds as [|f flds IH]; intros st Hk; [done |].
  simpl. apply IH. unfold model_clean_field.
  repeat case_match; try done. by apply add_error_keeps_errors.
Qed.

Lemma post_clean_keeps_errors flds model_clean st st' k :
  _post_clean flds E model_clean st = Some st' →
  is_Some (_errors st !! k) → is_Some (_errors st' !! k).
Proof.
  unfold _post_clean, _update_errors. intros Hpost Hk. revert st' Hpost.
  apply (map_fold_weak_ind (λ acc _, ∀ st', acc = Some st' → is_Some (_errors st' !! k))).
  - intros st' [= <-]. by apply model_clean_fields_keep_errors.
  - intros n messages m [acc|] _ IH st'; [| done]. simpl.
    case_decide; [| done]. intros [= <-]. apply add_error_keeps_errors. by apply IH.
Qed.

Lemma post_clean_Some flds model_clean st :
  (∀ k, is_Some (model_clean (cleaned_data st) !! k) →
        k = NON_FIELD_ERRORS ∨ k ∈ name <$> flds) →
  is_Some (_post_clean flds E model_clean st).
Proof.
  unfold _post_clean, _update_errors.
  generalize (model_clean (cleaned_data st)). intros errors.
  apply (map_fold_weak_ind
           (λ acc m, (∀ k, is_Some (m !! k) → k = NON_FIELD_ERRORS ∨ k ∈ name <$> flds) →
                     is_Some acc)).
  - by eexists.
  - intros n messages m acc Hn IH Hknown.
    destruct IH as [st' ->].
    { intros k Hk. apply Hknown. rewrite lookup_insert_ne; [done |].
      intros <-. rewrite Hn in Hk. by destruct Hk. }
    simpl. rewrite decide_True; [by eexists |].
    apply Hknown. rewrite lookup_insert_eq. by eexists.
Qed.

End cleaning.

Lemma to_python_date sp v x :
  to_python (DateField sp) v = Some (inr x) → x = VNone ∨ ∃ d, x = VDate d.
Proof.
  unfold to_python. destruct (is_empty v); [intros [= <-]; by left |].
  destruct v as [|s|z|d]; [done | | done |].
  - destruct (sp _); intros [= <-]. right. by eexists.
  - intros [= <-]. right. by eexists.
Qed.

Lemma field_clean_date msgs f v sp :
  formfield f = DateField sp →
  field_clean msgs f v
  = r ← to_python (DateField sp) v;
    Some (match r with
          | inl e => inl [shown msgs e]
          | inr x =>
              if (is_empty x && negb (blank f))%bool
              then inl [shown msgs {| code := "required";
                                      message := "This field is required." |}]
              else inr x
          end).
Proof.
  intros Hf. unfold field_clean, validate, form_validators. rewrite Hf.
  destruct (to_python (DateField sp) v) as [[e | x] |]; simpl; [done | | done].
  destruct (is_empty x && negb (blank f))%bool; [done |].
  by destruct (is_empty x).
Qed.

Lemma map_subseteq_empty_eq {A} (m : gmap string A) : m ⊆ ∅ → m = ∅.
Proof.
  intros Hsub. apply map_empty. intros k.
  destruct (m !! k) as [x|] eqn:Hk; [| done].
  apply (lookup_weaken _ _ _ _ Hk) in Hsub. by rewrite lookup_empty in Hsub.
Qed.

Lemma writable_py_str v : Spec.writable v = true → is_Some (py_str v).
Proof.
  destruct v as [|s|z|d]; simpl; try (by eexists).
  intros Hz. rewrite Nat.ltb_antisym, Hz. by eexists.
Qed.

Lemma date_read_to_python P v :
  Spec.date_read P v
  = match to_python (DateField (strptime P)) v with
    | Some (inr (VDate d)) => Some d
    | _ => None
    end.
Proof.
  unfold Spec.date_read, to_python. destruct v as [|s|z|d]; simpl; try done.
  destruct (String.eqb s ""); [done |]. by destruct (strptime P _).
Qed.

Ltac in_fields :=
  unfold Book_fields;
  repeat first [apply list_elem_of_here | apply list_elem_of_further].

Section BookForm.
Context (P : Project) (data files : gmap string value).

Let flds := Book_fields P.
Let init := {| cleaned_data := ∅; _errors := ∅ |}.

Lemma Book_fields_NoDup : NoDup (name <$> flds).
Proof.
  unfold flds, Book_fields. simpl.
  repeat (apply NoDup_cons; split;
          [rewrite ?elem_of_cons, elem_of_nil; intros H;
           repeat (destruct H as [H | H]; [discriminate H |]); exact H |]).
  apply NoDup_nil_2.
Qed.

Lemma Book_fields_cases f :
  f ∈ flds →
  f = title_field ∨ f = pages_field ∨ f = rating_field ∨ f = status_field P
  ∨ f = published_date_field P ∨ f = read_date_field P
  ∨ f = cover_image_field P ∨ f = authors_field P.
Proof.
  unfold flds, Book_fields. rewrite !elem_of_cons, elem_of_nil. tauto.
Qed.

(** On a candidate record no field raises anything but the
    [ValidationError] the form catches. *)
Lemma candidate_cleans f :
  Spec.candidate P data files = true → f ∈ flds →
  is_Some (field_clean (messages_of error_messages f) f (value_from_datadict f data files)).
Proof.
  unfold Spec.candidate. rewrite !andb_true_iff, !bool_decide_eq_true.
  intros [[[[[[t Ht]%writable_py_str [s Hs]%writable_py_str] Hp] Hr] Ha] Hi] Hf.
  apply Book_fields_cases in Hf as [-> | [-> | [-> | [-> | [-> | [-> | [-> | ->]]]]]]];
    unfold field_clean, value_from_datadict; cbn [formfield name title_field pages_field
      rating_field status_field published_date_field read_date_field cover_image_field
      authors_field]; unfold to_python.
  - destruct (is_empty _); [by eexists |]. rewrite Ht. by eexists.
  - destruct (is_empty _); by eexists.
  - destruct (is_empty _); by eexists.
  - destruct (is_empty _); [by eexists |]. rewrite Hs. by eexists.
  - destruct (dict_get data "published_date") as [|s0|z|d];
      [by eexists | | done | by eexists].
    destruct (is_empty (VStr s0)); by eexists.
  - destruct (dict_get data "read_date") as [|s0|z|d];
      [by eexists | | done | by eexists].
    destruct (is_empty (VStr s0)); by eexists.
  - exact Hi.
  - exact Ha.
Qed.

Lemma candidate_clean_fields :
  Spec.candidate P data files = true →
  is_Some (_clean_fields flds error_messages data files init).
Proof.
  intros Hc. apply clean_fields_Some. intros f Hf. by apply candidate_cleans.
Qed.

Context (st1 : form).
Context (Hst1 : _clean_fields flds error_messages data files init = Some st1).

Lemma st1_at f :
  f ∈ flds →
  cleaned_data st1 !! name f
  = match field_clean (messages_of error_messages f) f
            (value_from_datadict f data files) with
    | Some (inr x) => Some x
    | _ => None
    end ∧
  _errors st1 !! name f
  = match field_clean (messages_of error_messages f) f
            (value_from_datadict f data files) with
    | Some (inl errors) => Some errors
    | _ => None
    end.
Proof.
  intros Hin.
  destruct (clean_fields_at error_messages flds data files init st1 f
              Book_fields_NoDup Hin Hst1) as [Hc He].
  split; [exact Hc |]. rewrite He. unfold init. simpl.
  rewrite lookup_empty. by destruct (field_clean _ f _) as [[|]|].
Qed.

Lemma st1_other k : k ∉ name <$> flds → _errors st1 !! k = None.
Proof.
  intros Hk.
  destruct (clean_fields_other error_messages flds data files init st1 k Hst1 Hk)
    as [_ He].
  rewrite He. apply lookup_empty.
Qed.

Lemma cleaned_date f :
  f ∈ flds → formfield f = DateField (strptime P) →
  dict_get (cleaned_data st1) (name f)
  = match Spec.date_read P (dict_get data (name f)) with
    | Some d => VDate d
    | None => VNone
    end.
Proof.
  intros Hin Hf. destruct (st1_at f Hin) as [Hc _].
  unfold dict_get at 1. rewrite Hc. clear Hc.
  rewrite (field_clean_date _ f _ _ Hf).
  unfold value_from_datadict. rewrite Hf. rewrite date_read_to_python.
  destruct (to_python (DateField (strptime P)) (dict_get data (name f)))
    as [[e | x] |] eqn:Hpy; simpl; [done | | done].
  destruct (to_python_date _ _ _ Hpy) as [-> | [d ->]]; simpl; [| done].
  by destruct (negb (blank f)).
Qed.

Lemma cleaned_read_date :
  dict_get (cleaned_data st1) "read_date"
  = match Spec.date_read P (dict_get data "read_date") with
    | Some d => VDate d
    | None => VNone
    end.
Proof. apply (cleaned_date (read_date_field P)); [| done]. unfold flds. in_fields. Qed.

Lemma cleaned_published_date :
  dict_get (cleaned_data st1) "published_date"
  = match Spec.date_read P (dict_get data "published_date") with
    | Some d => VDate d
    | None => VNone
    end.
Proof. apply (cleaned_date (published_date_field P)); [| done]. unfold flds. in_fields. Qed.

Lemma clean_st1 :
  clean st1
  = Some (if Spec.read_before_published P data
          then add_error "read_date" ["The read date must be after the published date"] st1
          else st1).
Proof.
  unfold clean, Spec.read_before_published.
  rewrite cleaned_read_date, cleaned_published_date.
  destruct (Spec.date_read P (dict_get data "read_date")),
           (Spec.date_read P (dict_get data "published_date")); done.
Qed.

Lemma Book_clean_after_clean st2 :
  clean st1 = Some st2 → Book_clean (cleaned_data st2) = ∅.
Proof.
  rewrite clean_st1. intros [= <-]. unfold Book_clean.
  destruct (Spec.read_before_published P data) eqn:Hrbp.
  - unfold dict_get at 1. rewrite add_error_cleaned. by rewrite decide_True.
  - revert Hrbp. unfold Spec.read_before_published.
    rewrite cleaned_read_date, cleaned_published_date.
    destruct (Spec.date_read P (dict_get data "read_date")),
             (Spec.date_read P (dict_get data "published_date")); try done.
    by intros ->.
Qed.

Lemma read_before_published_cleaned f :
  f ∈ flds → name f = "read_date" → Spec.read_before_published P data = true →
  ∃ x, field_clean (messages_of error_messages f) f (value_from_datadict f data files)
       = Some (inr x).
Proof.
  intros Hin Hname Hrbp.
  assert (f = read_date_field P) as ->.
  { apply Book_fields_cases in Hin
      as [-> | [-> | [-> | [-> | [-> | [-> | [-> | ->]]]]]]]; done. }
  rewrite (field_clean_date _ _ _ (strptime P)) by done.
  revert Hrbp. unfold Spec.read_before_published, value_from_datadict.
  rewrite !date_read_to_python. cbn [formfield name read_date_field].
  destruct (to_python _ (dict_get data "read_date")) as [[e | [| s | z | d]] |];
    try done. intros _. by eexists.
Qed.

(** The error mapping of the cleaned form, for a model whose [clean]
    adds nothing to the rule on the two dates: every field with the messages
    it reports on its own, and nothing else. *)
Lemma BookForm_reports_from :
  Spec.model_rule_only P →
  ∃ st,
    BookForm P data files = Some st ∧
    (∀ f, f ∈ flds →
          _errors st !! name f = Spec.reported P data files f) ∧
    (∀ k, k ∉ name <$> flds → _errors st !! k = None).
Proof.
  intros Hmodel.
  unfold BookForm, full_clean. fold flds. fold init. rewrite Hst1. simpl.
  unfold _clean_form.
  pose proof clean_st1 as Hclean.
  destruct (clean st1) as [st2|] eqn:Hst2; [| done]. simpl.
  pose proof (map_subseteq_empty_eq (Model_clean P (cleaned_data st2))) as Hempty.
  rewrite <- (Book_clean_after_clean st2 Hst2) in Hempty at 1.
  specialize (Hempty (Hmodel _)).
  injection Hclean as Hst2'.
  eexists. split; [unfold _post_clean, _update_errors; by rewrite Hempty, map_fold_empty |].
  split.
  - intros f Hin. rewrite (model_clean_fields_at _ _ _ _ _ f Book_fields_NoDup Hin).
    destruct (st1_at f Hin) as [Hc He]. unfold Spec.reported.
    destruct (field_clean _ f _) as [[errors | x] |] eqn:Hfc.
    + (* the form field rejected the value *)
      assert (_errors st2 !! name f = Some errors) as He2.
      { subst st2. destruct (Spec.read_before_published P data) eqn:Hrbp; [| done].
        rewrite add_error_errors. case_decide as Hn; [| done].
        destruct (read_before_published_cleaned f Hin (eq_sym Hn) Hrbp) as [? ?].
        congruence. }
      unfold model_clean_field. rewrite decide_True by (apply elem_of_dom; eauto).
      done.
    + destruct (String.eqb (name f) "read_date" && Spec.read_before_published P data)%bool
        eqn:Hcross.
      * (* the rule on the two dates *)
        apply andb_true_iff in Hcross as [Hn Hrbp]. apply String.eqb_eq in Hn.
        assert (_errors st2 !! name f
                = Some ["The read date must be after the published date"]) as He2.
        { subst st2. rewrite Hrbp, add_error_errors, decide_True by done.
          rewrite <- Hn, He. done. }
        unfold model_clean_field. rewrite decide_True by (apply elem_of_dom; eauto).
        done.
      * (* the model's validators *)
        assert (_errors st2 !! name f = None ∧ cleaned_data st2 !! name f = Some x)
          as [He2 Hc2].
        { subst st2. destruct (Spec.read_before_published P data) eqn:Hrbp; [| done].
          rewrite andb_true_r in Hcross. apply String.eqb_neq in Hcross.
          rewrite add_error_errors, add_error_cleaned.
          by rewrite !decide_False. }
        unfold model_clean_field.
        rewrite decide_False by (rewrite elem_of_dom, He2; by intros [? ?]).
        unfold dict_get. rewrite Hc2. simpl.
        destruct (blank f && is_empty x)%bool; [done |].
        destruct (run_validators (model_validators f) x) as [|e errors]; [done |].
        rewrite add_error_errors, decide_True, He2 by done. done.
    + (* no field has raised once [_clean_fields] has returned *)
      destruct (clean_fields_Some_inv error_messages flds data files init st1 f Hst1 Hin)
        as [? ?]. congruence.
  - intros k Hk. rewrite model_clean_fields_other by done.
    pose proof (st1_other k Hk) as He.
    subst st2. destruct (Spec.read_before_published P data); [| done].
    rewrite add_error_errors, decide_False; [done |].
    intros <-. apply Hk. unfold flds, Book_fields. in_fields.
Qed.

End BookForm.

Lemma BookForm_reports (P : Project) (data files : gmap string value) :
  Spec.model_rule_only P → Spec.candidate P data files = true →
  ∃ st,
    BookForm P data files = Some st ∧
    (∀ f, f ∈ Book_fields P →
          _errors st !! name f = Spec.reported P data files f) ∧
    (∀ k, k ∉ name <$> Book_fields P → _errors st !! k = None).
Proof.
  intros Hmodel Hc.
  destruct (candidate_clean_fields P data files Hc) as [st1 Hst1].
  by apply (BookForm_reports_from P data files st1).
Qed.

Lemma messages_of_title f :
  name f = "title" →
  messages_of error_messages f
  = {[ "max_length" := "The title must be less than 50 characters long";
       "required" := "The title is mandatory" ]}.
Proof. intros Hn. unfold messages_of, error_messages. by rewrite Hn, lookup_singleton_eq. Qed.

Lemma messages_of_other f : name f ≠ "title" → messages_of error_messages f = ∅.
Proof.
  intros Hn. unfold messages_of, error_messages. by rewrite lookup_singleton_ne.
Qed.

Lemma date_lt_irrefl d : date_lt d d = false.
Proof. unfold date_lt, date_compare. by rewrite !Z.compare_refl. Qed.

Lemma read_before_published_iff P data :
  Spec.read_before_published P data = true
  ↔ ∃ r p, Spec.date_read P (dict_get data "read_date") = Some r ∧
           Spec.date_read P (dict_get data "published_date") = Some p ∧
           date_lt r p = true.
Proof.
  unfold Spec.read_before_published. split.
  - destruct (Spec.date_read P (dict_get data "read_date")),
             (Spec.date_read P (dict_get data "published_date")); try done.
    intros H. by eexists _, _.
  - by intros (r & p & -> & -> & ->).
Qed.

Lemma date_read_Some P v d :
  Spec.date_read P v = Some d
  ↔ to_python (DateField (strptime P)) v = Some (inr (VDate d)).
Proof.
  rewrite date_read_to_python.
  destruct (to_python _ v) as [[e | [| s | z | d']] |]; split; intros; by simplify_eq.
Qed.

Lemma reported_read_date P data files :
  Spec.reported P data files (read_date_field P)
  = match to_python (DateField (strptime P)) (dict_get data "read_date") with
    | Some (inl _) => Some ["Enter a valid date."]
    | Some (inr _) =>
        if Spec.read_before_published P data
        then Some ["The read date must be after the published date"]
        else None
    | None => None
    end.
Proof.
  unfold Spec.reported. rewrite messages_of_other by done.
  rewrite (field_clean_date _ _ _ (strptime P)) by done.
  unfold value_from_datadict. cbn [formfield name blank read_date_field].
  destruct (to_python _ (dict_get data "read_date")) as [[e | x] |] eqn:Hpy;
    [| | done].
  - revert Hpy. unfold to_python. destruct (is_empty _); [done |].
    destruct (dict_get data "read_date") as [|s|z|d]; try done.
    destruct (strptime P _); by intros [= <-].
  - simpl. rewrite andb_false_r. simpl.
    destruct (Spec.read_before_published P data); [done |].
    destruct (to_python_date _ _ _ Hpy) as [-> | [d ->]]; done.
Qed.

Lemma reported_title P data files :
  Spec.reported P data files title_field
  = t ← Spec.title_text data;
    if String.eqb t "" then Some ["The title is mandatory"]
    else match ((if (50 <? String.length t)%nat
                 then ["The title must be less than 50 characters long"] else [])
                ++ (if contains NUL t
                    then ["Null characters are not allowed."] else []))%list with
         | [] => None
         | errors => Some errors
         end.
Proof.
  unfold Spec.reported, Spec.title_text. rewrite messages_of_title by done.
  unfold field_clean, value_from_datadict. cbn [formfield name title_field].
  unfold to_python.
  destruct (is_empty (dict_get data "title")); [done |].
  destruct (py_str (dict_get data "title")) as [s|]; [| done].
  simpl. generalize (strip s). intros t.
  unfold validate. simpl.
  destruct (String.eqb t "") eqn:Hempty; simpl; [done |].
  destruct (50 <? String.length t)%nat eqn:Hlen; simpl;
    destruct (contains NUL t); simpl; rewrite ?Hlen; done.
Qed.

Lemma read_date_field_in P : read_date_field P ∈ Book_fields P.
Proof. in_fields. Qed.

Lemma title_field_in P : title_field ∈ Book_fields P.
Proof. in_fields. Qed.

Lemma candidate_title_text P data files :
  Spec.candidate P data files = true → is_Some (Spec.title_text data).
Proof.
  unfold Spec.candidate, Spec.title_text.
  rewrite !andb_true_iff. intros [[[[[[t ->]%writable_py_str _] _] _] _] _].
  destruct (is_empty _); by eexists.
Qed.

(** A submission of texts, as a browser posts it, is a candidate record
    wherever the fields of authors and of the cover image raise nothing of
    their own. *)
Lemma text_candidate (P : Project) (data files : gmap string value) :
  (∀ k v, data !! k = Some v → ∃ s, v = VStr s) →
  is_Some (authors_clean P (dict_get data "authors")) →
  is_Some (cover_image_clean P (dict_get files "cover_image")) →
  Spec.candidate P data files = true.
Proof.
  intros Htext Ha Hi.
  assert (∀ k, dict_get data k = VNone ∨ ∃ s, dict_get data k = VStr s) as Hget.
  { intros k. unfold dict_get. destruct (data !! k) as [v|] eqn:Hk; [| by left].
    destruct (Htext k v Hk) as [s ->]. right. by eexists. }
  unfold Spec.candidate. rewrite !andb_true_iff, !bool_decide_eq_true.
  destruct (Hget "title") as [-> | [? ->]], (Hget "status") as [-> | [? ->]],
    (Hget "published_date") as [-> | [? ->]], (Hget "read_date") as [-> | [? ->]];
    done.
Qed.

(** The two sample projects have a model whose [clean] adds nothing to
    the rule on the two dates. *)
Lemma project_model_rule_only : Spec.model_rule_only Sample.project.
Proof. by intros instance. Qed.

Lemma project_without_model_clean_rule_only :
  Spec.model_rule_only Sample.project_without_model_clean.
Proof. intros instance. apply map_empty_subseteq. Qed.

(** C2: on a candidate record, the cleaned form carries the message "The
    read date must be after the published date" under read_date if and only
    if the form reads a date in both read_date and published_date and the
    read date is before the published date, and that message is then the
    only one of the field; with the two dates equal, or with no read date,
    read_date has no error.  This holds with a model that reports the same
    rule and with a model that has no rule of its own: the form's [clean]
    reports it. *)
Theorem BookForm_read_date_rule (P : Project) (data files : gmap string value) :
  Spec.model_rule_only P → Spec.candidate P data files = true →
  ∃ st,
    BookForm P data files = Some st ∧
    ("The read date must be after the published date"
       ∈ default [] (_errors st !! "read_date")
     ↔ ∃ r p, Spec.date_read P (dict_get data "read_date") = Some r ∧
              Spec.date_read P (dict_get data "published_date") = Some p ∧
              date_lt r p = true) ∧
    ((∃ r p, Spec.date_read P (dict_get data "read_date") = Some r ∧
             Spec.date_read P (dict_get data "published_date") = Some p ∧
             date_lt r p = true) →
     _errors st !! "read_date"
     = Some ["The read date must be after the published date"]) ∧
    (∀ d, Spec.date_read P (dict_get data "read_date") = Some d →
          Spec.date_read P (dict_get data "published_date") = Some d →
          _errors st !! "read_date" = None) ∧
    (is_empty (dict_get data "read_date") = true → _errors st !! "read_date" = None).
Proof.
  intros Hmodel Hc.
  destruct (BookForm_reports P data files Hmodel Hc) as (st & Hst & Hfields & _).
  exists st. split; [exact Hst |].
  pose proof (Hfields _ (read_date_field_in P)) as He. simpl in He.
  rewrite reported_read_date in He. rewrite He. clear He Hfields Hst.
  rewrite <- read_before_published_iff.
  assert (Hdate : Spec.read_before_published P data = true →
                  ∃ d, to_python (DateField (strptime P)) (dict_get data "read_date")
                       = Some (inr (VDate d))).
  { intros (r & p & Hr & _)%read_before_published_iff.
    exists r. by apply date_read_Some. }
  destruct (Spec.read_before_published P data) eqn:Hrbp.
  - destruct (Hdate eq_refl) as [r Hr]. rewrite Hr. simpl.
    split; [| split; [done | split]].
    + split; [done | intros _; apply list_elem_of_here].
    + intros d Hd Hp. revert Hrbp. unfold Spec.read_before_published.
      by rewrite Hd, Hp, date_lt_irrefl.
    + intros Hempty. revert Hr. unfold to_python. by rewrite Hempty.
  - clear Hdate. split; [| split; [done | split]].
    + split; [| done].
      destruct (to_python _ (dict_get data "read_date")) as [[e | x] |]; simpl;
        rewrite ?elem_of_nil, ?list_elem_of_singleton; done.
    + intros d Hd _. apply date_read_Some in Hd. by rewrite Hd.
    + intros Hempty. unfold to_python. by rewrite Hempty.
Qed.

Lemma late_read_date_candidate :
  Spec.candidate Sample.project_without_model_clean
    (<["read_date" := VStr "2019-12-31"]> Sample.valid_text) ∅ = true.
Proof. vm_compute. reflexivity. Qed.

Lemma late_read_date_before :
  ∃ r p,
    Spec.date_read Sample.project_without_model_clean
      (dict_get (<["read_date" := VStr "2019-12-31"]> Sample.valid_text) "read_date")
    = Some r ∧
    Spec.date_read Sample.project_without_model_clean
      (dict_get (<["read_date" := VStr "2019-12-31"]> Sample.valid_text) "published_date")
    = Some p ∧
    date_lt r p = true.
Proof. exists (Date 2019 12 31), (Date 2020 1 1). vm_compute. by repeat split. Qed.

Lemma BookForm_read_date_rule_witness :
  ∃ st,
    BookForm Sample.project_without_model_clean
      (<["read_date" := VStr "2019-12-31"]> Sample.valid_text) ∅ = Some st ∧
    _errors st !! "read_date" = Some ["The read date must be after the published date"].
Proof.
  destruct (BookForm_read_date_rule Sample.project_without_model_clean
              (<["read_date" := VStr "2019-12-31"]> Sample.valid_text) ∅
              project_without_model_clean_rule_only late_read_date_candidate)
    as (st & Hst & _ & Hbefore & _).
  exists st. split; [exact Hst |]. exact (Hbefore late_read_date_before).
Defined.

(** C5 as it is stated fails on white space: a title of 51 characters,
    fifty letters and a space after them, is accepted, for the form strips
    the title before it measures it. *)
Lemma title_of_51_characters_accepted :
  String.length "AAAAAAAAAAAAAAAAAAAAAAAAAAAAAAAAAAAAAAAAAAAAAAAAAA " = 51%nat ∧
  is_valid Sample.project
    (<["title" := VStr "AAAAAAAAAAAAAAAAAAAAAAAAAAAAAAAAAAAAAAAAAAAAAAAAAA "]>
       Sample.valid_data) ∅ = Some true.
Proof. by vm_compute. Qed.

(** C5, amended: the rules bear on the title as the form takes it, the
    white space around it stripped.  An empty title is reported under title
    with exactly the message "The title is mandatory"; a title of 51 or more
    characters with the message "The title must be less than 50 characters
    long", alone unless the title holds a NUL character, which adds "Null
    characters are not allowed."; a title of 1 to 50 characters has no
    message, unless it holds a NUL character. *)
Theorem BookForm_title_messages (P : Project) (data files : gmap string value) :
  Spec.model_rule_only P → Spec.candidate P data files = true →
  ∃ st t,
    BookForm P data files = Some st ∧
    Spec.title_text data = Some t ∧
    (t = "" → _errors st !! "title" = Some ["The title is mandatory"]) ∧
    ((51 ≤ String.length t)%nat →
     _errors st !! "title"
     = Some ("The title must be less than 50 characters long"
             :: if contains NUL t then ["Null characters are not allowed."] else [])) ∧
    ((1 ≤ String.length t ≤ 50)%nat →
     _errors st !! "title"
     = if contains NUL t then Some ["Null characters are not allowed."] else None).
Proof.
  intros Hmodel Hc.
  destruct (BookForm_reports P data files Hmodel Hc) as (st & Hst & Hfields & _).
  destruct (candidate_title_text P data files Hc) as [t Ht].
  exists st, t. split; [exact Hst |]. split; [exact Ht |].
  pose proof (Hfields _ (title_field_in P)) as He. simpl in He.
  rewrite reported_title, Ht in He. simpl in He. rewrite He. clear He Hfields Hst.
  split; [| split].
  - by intros ->.
  - intros Hlen.
    destruct (String.eqb t "") eqn:Hempty.
    { apply String.eqb_eq in Hempty. subst. simpl in Hlen. lia. }
    apply Nat.ltb_lt in Hlen. rewrite Hlen.
    by destruct (contains NUL t).
  - intros [Hlo Hhi].
    destruct (String.eqb t "") eqn:Hempty.
    { apply String.eqb_eq in Hempty. subst. simpl in Hlo. lia. }
    assert ((50 <? String.length t)%nat = false) as -> by (apply Nat.ltb_ge; lia).
    by destruct (contains NUL t).
Qed.

Lemma blank_title_candidate :
  Spec.candidate Sample.project (<["title" := VStr "   "]> Sample.valid_text) ∅ = true.
Proof. vm_compute. reflexivity. Qed.

Lemma blank_title_text :
  Spec.title_text (<["title" := VStr "   "]> Sample.valid_text) = Some "".
Proof. vm_compute. reflexivity. Qed.

Lemma BookForm_title_messages_witness :
  ∃ st,
    BookForm Sample.project (<["title" := VStr "   "]> Sample.valid_text) ∅ = Some st ∧
    _errors st !! "title" = Some ["The title is mandatory"].
Proof.
  destruct (BookForm_title_messages Sample.project
              (<["title" := VStr "   "]> Sample.valid_text) ∅
              project_model_rule_only blank_title_candidate)
    as (st & t & Hst & Ht & Hempty & _).
  exists st. split; [exact Hst |]. apply Hempty.
  rewrite blank_title_text in Ht. by injection Ht as <-.
Defined.

(** C8: cleaning a candidate record raises nothing; it ends with one
    mapping from field names to message lists in which every field of the
    form appears with the messages it gives rise to on its own, whatever the
    other fields did, and no other name appears.  In particular, when the
    rule on the two dates fails, its message stands under read_date and the
    other fields are still checked and reported.  This holds with a model
    that reports the same rule and with a model that has no rule of its
    own. *)
Theorem BookForm_reports_all_failing_fields
    (P : Project) (data files : gmap string value) :
  Spec.model_rule_only P → Spec.candidate P data files = true →
  ∃ st,
    BookForm P data files = Some st ∧
    (∀ f, f ∈ Book_fields P →
          _errors st !! name f = Spec.reported P data files f) ∧
    (∀ k, k ∉ name <$> Book_fields P → _errors st !! k = None) ∧
    (Spec.read_before_published P data = true →
     _errors st !! "read_date" = Some ["The read date must be after the published date"] ∧
     ∀ f, f ∈ Book_fields P → name f ≠ "read_date" →
          is_Some (Spec.reported P data files f) →
          is_Some (_errors st !! name f)).
Proof.
  intros Hmodel Hc.
  destruct (BookForm_reports P data files Hmodel Hc) as (st & Hst & Hfields & Hother).
  exists st. split; [exact Hst |]. split; [exact Hfields |]. split; [exact Hother |].
  intros Hrbp. split.
  - pose proof (Hfields _ (read_date_field_in P)) as He. simpl in He.
    rewrite reported_read_date, Hrbp in He.
    apply read_before_published_iff in Hrbp as (r & p & Hr & _).
    apply date_read_Some in Hr. by rewrite Hr in He.
  - intros f Hin _ Hsome. by rewrite (Hfields f Hin).
Qed.

Lemma four_failures_candidate :
  Spec.candidate Sample.project_without_model_clean
    (<["title" := VStr ""]> (<["pages" := VStr "0"]> (<["rating" := VStr "6"]>
       (<["read_date" := VStr "2019-12-31"]> Sample.valid_text)))) ∅ = true.
Proof. vm_compute. reflexivity. Qed.

Lemma four_failures_before :
  Spec.read_before_published Sample.project_without_model_clean
    (<["title" := VStr ""]> (<["pages" := VStr "0"]> (<["rating" := VStr "6"]>
       (<["read_date" := VStr "2019-12-31"]> Sample.valid_text)))) = true.
Proof. vm_compute. reflexivity. Qed.

Lemma four_failures_reported :
  let data := <["title" := VStr ""]> (<["pages" := VStr "0"]> (<["rating" := VStr "6"]>
                (<["read_date" := VStr "2019-12-31"]> Sample.valid_text))) in
  let P := Sample.project_without_model_clean in
  Spec.reported P data ∅ title_field = Some ["The title is mandatory"] ∧
  Spec.reported P data ∅ pages_field
  = Some ["Ensure this value is greater than or equal to 1."] ∧
  Spec.reported P data ∅ rating_field
  = Some ["Ensure this value is less than or equal to 5."] ∧
  Spec.reported P data ∅ (status_field P) = None ∧
  Spec.reported P data ∅ (published_date_field P) = None.
Proof. vm_compute. by repeat split. Qed.

Lemma BookForm_reports_all_failing_fields_witness :
  ∃ st,
    BookForm Sample.project_without_model_clean
      (<["title" := VStr ""]> (<["pages" := VStr "0"]> (<["rating" := VStr "6"]>
         (<["read_date" := VStr "2019-12-31"]> Sample.valid_text)))) ∅ = Some st ∧
    _errors st !! "read_date" = Some ["The read date must be after the published date"] ∧
    _errors st !! "title" = Some ["The title is mandatory"] ∧
    _errors st !! "pages" = Some ["Ensure this value is greater than or equal to 1."] ∧
    _errors st !! "rating" = Some ["Ensure this value is less than or equal to 5."] ∧
    _errors st !! "status" = None ∧
    _errors st !! "published_date" = None.
Proof.
  destruct (BookForm_reports_all_failing_fields Sample.project_without_model_clean
      (<["title" := VStr ""]> (<["pages" := VStr "0"]> (<["rating" := VStr "6"]>
         (<["read_date" := VStr "2019-12-31"]> Sample.valid_text)))) ∅
      project_without_model_clean_rule_only four_failures_candidate)
    as (st & Hst & Hfields & _ & Hcross).
  destruct four_failures_reported as (Htitle & Hpages & Hrating & Hstatus & Hpublished).
  exists st. split; [exact Hst |].
  split; [exact (proj1 (Hcross four_failures_before)) |].
  split; [rewrite <- Htitle; apply (Hfields title_field); in_fields |].
  split; [rewrite <- Hpages; apply (Hfields pages_field); in_fields |].
  split; [rewrite <- Hrating; apply (Hfields rating_field); in_fields |].
  split; [rewrite <- Hstatus;
          apply (Hfields (status_field Sample.project_without_model_clean)); in_fields |].
  rewrite <- Hpublished.
  apply (Hfields (published_date_field Sample.project_without_model_clean)). in_fields.
Defined.

(** ** The gated routes *)

Lemma anonymous_has_no_perm (u : User) (perm : string) :
  is_authenticated u = false → has_perm u perm = false.
Proof. by destruct u. Qed.

Lemma get_response_class_view project table request v pk mixin generic :
  resolve urlpatterns (path request) = Some (v, pk) →
  bases v = Some (mixin, generic) →
  get_response project table request
  = Some (access_dispatch mixin (user request)
            (generic_dispatch project generic table request pk)).
Proof. intros Hr Hb. unfold get_response. by rewrite Hr, Hb. Qed.

(** C1 as it is stated fails on a missing record: a user who holds the
    two permissions asks for the edit page of a record that does not exist,
    and the answer is 404, not 200. *)
Lemma gated_route_missing_record :
  has_perm Sample.admin_user "bookapp.change_book" = true ∧
  has_perm Sample.admin_user "bookapp.delete_book" = true ∧
  resolve urlpatterns "7/edit" = Some (BookUpdate, 7) ∧
  get_response Sample.project [Sample.test_book]
    (Sample.get Sample.admin_user "7/edit" ∅) = Some 404.
Proof. by vm_compute. Qed.

(** C1, amended: on a request that resolves to one of the four gated
    views, an anonymous user gets 302 whatever the method and the record;
    a logged-in user gets 200 on GET of the creation form without any
    permission, and 403 on the edit and delete views without the change,
    respectively delete, permission; a user who holds both permissions
    gets 200 on GET of every gated view whose record exists (the creation
    form addresses none), and 404 when the record does not exist. *)
Theorem gated_routes_access (project : Project) (table : list Book)
    (request : HttpRequest) (v : view) (pk : Z) :
  resolve urlpatterns (path request) = Some (v, pk) →
  v ∈ [BookCreate; BookDetail; BookUpdate; BookDelete] →
  (is_authenticated (user request) = false →
   get_response project table request = Some 302) ∧
  (is_authenticated (user request) = true →
   (v = BookCreate → method request = Get →
    get_response project table request = Some 200) ∧
   (v = BookUpdate → has_perm (user request) "bookapp.change_book" = false →
    get_response project table request = Some 403) ∧
   (v = BookDelete → has_perm (user request) "bookapp.delete_book" = false →
    get_response project table request = Some 403)) ∧
  (has_perm (user request) "bookapp.change_book" = true →
   has_perm (user request) "bookapp.delete_book" = true →
   method request = Get →
   (v = BookCreate ∨ is_Some (get_object table pk) →
    get_response project table request = Some 200) ∧
   (v ≠ BookCreate → get_object table pk = None →
    get_response project table request = Some 404)).
Proof.
  intros Hr Hv.
  assert (∃ mixin generic, bases v = Some (mixin, generic)) as (mixin & generic & Hb).
  { rewrite !elem_of_cons, elem_of_nil in Hv.
    destruct Hv as [-> | [-> | [-> | [-> | []]]]]; simpl; eauto. }
  rewrite (get_response_class_view _ _ _ _ _ _ _ Hr Hb).
  rewrite !elem_of_cons, elem_of_nil in Hv.
  split; [| split].
  - intros Hanon.
    pose proof (anonymous_has_no_perm _ "bookapp.change_book" Hanon) as Hc.
    pose proof (anonymous_has_no_perm _ "bookapp.delete_book" Hanon) as Hd.
    destruct Hv as [-> | [-> | [-> | [-> | []]]]]; simplify_eq/=;
      unfold handle_no_permission; by rewrite ?Hanon, ?Hc, ?Hd.
  - intros Hauth. split; [| split].
    + intros -> Hm. simplify_eq/=. by rewrite Hauth, Hm.
    + intros -> Hp. simplify_eq/=. unfold handle_no_permission. by rewrite Hp, Hauth.
    + intros -> Hp. simplify_eq/=. unfold handle_no_permission. by rewrite Hp, Hauth.
  - intros Hc Hd Hm.
    assert (is_authenticated (user request) = true) as Hauth.
    { destruct (user request); [done | done]. }
    split.
    + intros Hobj.
      destruct Hv as [-> | [-> | [-> | [-> | []]]]]; simplify_eq/=;
        rewrite ?Hauth, ?Hc, ?Hd, ?Hm; simpl; try done.
      all: destruct Hobj as [? | [b Hb']]; [done |]; by rewrite Hb'.
    + intros Hne Hobj.
      destruct Hv as [-> | [-> | [-> | [-> | []]]]]; simplify_eq/=;
        by rewrite ?Hauth, ?Hc, ?Hd, ?Hm, ?Hobj.
Qed.

Lemma edit_route_resolves : resolve urlpatterns "1/edit" = Some (BookUpdate, 1).
Proof. by vm_compute. Qed.

Lemma BookUpdate_gated : BookUpdate ∈ [BookCreate; BookDetail; BookUpdate; BookDelete].
Proof. apply list_elem_of_further, list_elem_of_further, list_elem_of_here. Qed.

Lemma gated_routes_access_witness :
  get_response Sample.project [Sample.test_book]
    (Sample.get AnonymousUser "1/edit" ∅) = Some 302 ∧
  get_response Sample.project [Sample.test_book]
    (Sample.get Sample.regular_user "1/edit" ∅) = Some 403 ∧
  get_response Sample.project [Sample.test_book]
    (Sample.get Sample.admin_user "1/edit" ∅) = Some 200.
Proof.
  split; [| split].
  - destruct (gated_routes_access Sample.project [Sample.test_book]
                (Sample.get AnonymousUser "1/edit" ∅) BookUpdate 1
                edit_route_resolves BookUpdate_gated) as (Hanon & _ & _).
    exact (Hanon eq_refl).
  - destruct (gated_routes_access Sample.project [Sample.test_book]
                (Sample.get Sample.regular_user "1/edit" ∅) BookUpdate 1
                edit_route_resolves BookUpdate_gated) as (_ & Hauth & _).
    destruct (Hauth eq_refl) as (_ & Hedit & _).
    apply Hedit; [reflexivity | by vm_compute].
  - destruct (gated_routes_access Sample.project [Sample.test_book]
                (Sample.get Sample.admin_user "1/edit" ∅) BookUpdate 1
                edit_route_resolves BookUpdate_gated) as (_ & _ & Hperm).
    destruct Hperm as (Hfound & _); [by vm_compute | by vm_compute | reflexivity |].
    apply Hfound. right. by eexists.
Defined.

(* ===================================================================== *)
(** * Further properties *)
(* ===================================================================== *)

(** ** urlpatterns *)

Lemma resolve_Some pats p v pk :
  resolve pats p = Some (v, pk) → ∃ r, (r, v) ∈ pats ∧ route_match r p = Some pk.
Proof.
  induction pats as [|[r' v'] pats IH]; simpl; [done |].
  destruct (route_match r' p) as [pk'|] eqn:Hm.
  - intros [= <- <-]. exists r'. split; [apply list_elem_of_here | done].
  - intros (r & Hin & Hr)%IH. exists r. split; [by apply list_elem_of_further | done].
Qed.

Lemma resolve_of_match pats p r v pk :
  (r, v) ∈ pats → route_match r p = Some pk →
  (∀ r' v', (r', v') ∈ pats → is_Some (route_match r' p) → (r', v') = (r, v)) →
  resolve pats p = Some (v, pk).
Proof.
  induction pats as [|[r' v'] pats IH]; intros Hin Hm Huniq.
  { by apply elem_of_nil in Hin. }
  simpl. destruct (route_match r' p) as [pk'|] eqn:Hm'.
  - assert ((r', v') = (r, v)) as [= -> ->].
    { apply Huniq; [apply list_elem_of_here | by eexists]. }
    congruence.
  - apply elem_of_cons in Hin as [[= <- <-] | Hin]; [congruence |].
    apply IH; [done | done |]. intros r'' v'' Hin'' Hs.
    apply Huniq; [by apply list_elem_of_further | done].
Qed.

Lemma route_match_literal lit p pk :
  route_match {| int_pk := false; literal := lit |} p = Some pk → p = lit ∧ pk = 0.
Proof.
  unfold route_match. simpl. destruct (String.eqb_spec p lit); [| done].
  by intros [= <-].
Qed.

Lemma route_match_int lit p pk :
  route_match {| int_pk := true; literal := lit |} p = Some pk →
  leading_int None p = (Some pk, lit).
Proof.
  unfold route_match. simpl. destruct (leading_int None p) as [[pk'|] rest]; [| done].
  destruct (String.eqb_spec rest lit); [| done]. by intros [= <-]; subst.
Qed.

Lemma urlpatterns_disjoint p r1 v1 r2 v2 :
  (r1, v1) ∈ urlpatterns → (r2, v2) ∈ urlpatterns →
  is_Some (route_match r1 p) → is_Some (route_match r2 p) → (r1, v1) = (r2, v2).
Proof.
  unfold urlpatterns. rewrite !elem_of_cons, !elem_of_nil.
  intros H1 H2 [pk1 Hm1] [pk2 Hm2].
  repeat (destruct H1 as [[= -> ->] | H1]); try done;
    repeat (destruct H2 as [[= -> ->] | H2]); try done;
    first [ apply route_match_literal in Hm1 as [-> _]; by vm_compute in Hm2
          | apply route_match_literal in Hm2 as [-> _]; by vm_compute in Hm1
          | apply route_match_int in Hm1; apply route_match_int in Hm2; congruence ].
Qed.

(** X1: a path is dispatched to a view exactly when the pattern written
    for that view matches it: no pattern of [urlpatterns] shadows another,
    and their order plays no part. *)
Theorem resolve_iff_own_pattern (p : string) (v : view) (pk : Z) :
  resolve urlpatterns p = Some (v, pk)
  ↔ ∃ r, (r, v) ∈ urlpatterns ∧ route_match r p = Some pk.
Proof.
  split; [apply resolve_Some |].
  intros (r & Hin & Hm). apply (resolve_of_match _ _ r); [done | done |].
  intros r' v' Hin' Hs. by apply (urlpatterns_disjoint p).
Qed.

Lemma digit_pretty_N_char (d : N) :
  (d < 10)%N → digit (pretty_N_char d) = Some (Z.of_N d).
Proof.
  intros Hd.
  assert (d = 0 ∨ d = 1 ∨ d = 2 ∨ d = 3 ∨ d = 4 ∨ d = 5 ∨ d = 6 ∨ d = 7 ∨ d = 8
          ∨ d = 9)%N as Hcases by lia.
  repeat (destruct Hcases as [-> | Hcases]; [by vm_compute |]). subst. by vm_compute.
Qed.

Lemma leading_int_pretty_N_go (x : N) (s : string) :
  (0 < x)%N → leading_int None (pretty_N_go x s) = leading_int (Some (Z.of_N x)) s.
Proof.
  revert s. induction (N.lt_wf_0 x) as [x _ IH]. intros s Hx.
  rewrite pretty_N_go_step by done.
  pose proof (digit_pretty_N_char (x `mod` 10) ltac:(by apply N.mod_lt)) as Hd.
  destruct (decide (x < 10)%N) as [Hsmall | Hbig].
  - rewrite N.div_small, pretty_N_go_0 by done. simpl. rewrite Hd.
    by rewrite N.mod_small.
  - rewrite IH; [| apply N.div_lt; lia | apply N.div_str_pos; lia].
    simpl. rewrite Hd. do 2 f_equal.
    rewrite (N.div_mod x 10) at 3 by done. lia.
Qed.

Lemma pretty_N_go_app (x : N) (s t : string) :
  pretty_N_go x s +:+ t = pretty_N_go x (s +:+ t).
Proof.
  revert s. induction (N.lt_wf_0 x) as [x _ IH]. intros s.
  destruct (decide (0 < x)%N) as [Hx | Hx].
  - rewrite (pretty_N_go_step x s), (pretty_N_go_step x (s +:+ t)) by done.
    rewrite IH by (apply N.div_lt; lia). by rewrite app_String.
  - assert (x = 0%N) as -> by lia. by rewrite !pretty_N_go_0.
Qed.

Lemma leading_int_pretty (pk : Z) (rest : string) :
  0 ≤ pk → leading_int None (pretty pk +:+ rest) = leading_int (Some pk) rest.
Proof.
  intros Hpk. destruct pk as [|q|q]; [done | | lia].
  change (pretty (Z.pos q)) with (pretty (N.pos q)).
  unfold pretty, pretty_N. rewrite decide_False by done.
  rewrite pretty_N_go_app. rewrite leading_int_pretty_N_go by lia. done.
Qed.

Lemma route_match_reverse (lit : string) (pk : Z) :
  0 ≤ pk → leading_int (Some pk) lit = (Some pk, lit) →
  route_match {| int_pk := true; literal := lit |} (pretty pk +:+ lit) = Some pk.
Proof.
  intros Hpk Hlit. unfold route_match. simpl.
  rewrite leading_int_pretty, Hlit by done. by rewrite String.eqb_refl.
Qed.

Lemma resolve_own_pattern p r v pk :
  (r, v) ∈ urlpatterns → route_match r p = Some pk →
  resolve urlpatterns p = Some (v, pk).
Proof.
  intros Hin Hm. apply (resolve_of_match _ _ r); [done | done |].
  intros r' v' Hin' Hs. eapply urlpatterns_disjoint; eauto.
Qed.

Ltac in_list := repeat first [apply list_elem_of_here | apply list_elem_of_further].

(** X2: the path [reverse] writes for a view leads back to that view:
    resolving it gives the view, with the same number for the three record
    views (detail, edit, delete) and for every number that is not
    negative. *)
Theorem reverse_resolve (v : view) (pk : Z) (p : string) :
  reverse v pk = Some p →
  resolve urlpatterns p
  = Some (v, match v with BookDetail | BookUpdate | BookDelete => pk | _ => 0 end).
Proof.
  intros Hrev.
  destruct v; unfold reverse in Hrev; simpl in Hrev;
    try (injection Hrev as <-; reflexivity).
  all: destruct (Z.ltb_spec pk 0); [done |]; injection Hrev as <-.
  - eapply resolve_own_pattern; [| by apply route_match_reverse]. unfold urlpatterns. in_list.
  - eapply resolve_own_pattern; [| by apply route_match_reverse]. unfold urlpatterns. in_list.
  - eapply resolve_own_pattern; [| by apply route_match_reverse]. unfold urlpatterns. in_list.
Qed.

Lemma reverse_resolve_witness :
  reverse BookUpdate 12 = Some "12/edit" ∧
  resolve urlpatterns "12/edit" = Some (BookUpdate, 12).
Proof.
  split; [reflexivity |]. exact (reverse_resolve BookUpdate 12 "12/edit" eq_refl).
Defined.

(** ** The views behind the routes *)




(** X4: the detail page asks for a login and for nothing more: a
    logged-in user, with or without permissions, gets 200 on GET or HEAD of
    an existing record, 404 when there is no such record, and 405 on POST. *)
Theorem detail_view_needs_login_only (project : Project) (table : list Book)
    (request : HttpRequest) (pk : Z) :
  resolve urlpatterns (path request) = Some (BookDetail, pk) →
  is_authenticated (user request) = true →
  get_response project table request
  = Some (match method request with
          | Post => 405
          | _ => match get_object table pk with Some _ => 200 | None => 404 end
          end).
Proof.
  intros Hr Hauth.
  rewrite (get_response_class_view _ _ _ _ _ _ _ Hr eq_refl). simpl.
  rewrite Hauth. simpl. by destruct (method request), (get_object table pk).
Qed.

Lemma detail_view_needs_login_only_witness :
  get_response Sample.project [Sample.test_book]
    (Sample.get Sample.regular_user "1/detail" ∅) = Some 200.
Proof.
  exact (detail_view_needs_login_only Sample.project [Sample.test_book]
           (Sample.get Sample.regular_user "1/detail" ∅) 1 eq_refl eq_refl).
Defined.

(** X5: each permission opens its own page and no other: with
    [change_book] the edit page of an existing record answers 200 on GET
    whether or not the user may delete, with [delete_book] the delete page
    does whether or not the user may change, and a superuser passes both. *)
Theorem permissions_are_independent (project : Project) (table : list Book)
    (request : HttpRequest) (v : view) (pk : Z) :
  resolve urlpatterns (path request) = Some (v, pk) →
  method request = Get →
  is_Some (get_object table pk) →
  (v = BookUpdate ∧ has_perm (user request) "bookapp.change_book" = true)
  ∨ (v = BookDelete ∧ has_perm (user request) "bookapp.delete_book" = true)
  ∨ ((v = BookUpdate ∨ v = BookDelete) ∧ ∃ perms, user request = AuthenticatedUser true perms) →
  get_response project table request = Some 200.
Proof.
  intros Hr Hm [b Hb] Hperm.
  assert (∃ perm generic, bases v = Some (PermissionRequiredMixin perm, generic)
                          ∧ has_perm (user request) perm = true
                          ∧ (generic = UpdateView ∨ generic = DeleteView))
    as (perm & generic & Hbases & Hhas & Hgen).
  { destruct Hperm as [[-> Hp] | [[-> Hp] | [[-> | ->] [perms Hu]]]];
      eexists _, _; (split; [reflexivity |]); rewrite ?Hu; eauto. }
  rewrite (get_response_class_view _ _ _ _ _ _ _ Hr Hbases). simpl.
  rewrite Hhas. simpl. destruct Hgen as [-> | ->]; simpl; by rewrite Hb, ?Hm.
Qed.

Lemma permissions_are_independent_witness :
  has_perm (AuthenticatedUser false {[ "bookapp.change_book" ]}) "bookapp.delete_book"
  = false ∧
  get_response Sample.project [Sample.test_book]
    (Sample.get (AuthenticatedUser false {[ "bookapp.change_book" ]}) "1/edit" ∅)
  = Some 200.
Proof.
  split; [by vm_compute |].
  apply (permissions_are_independent Sample.project [Sample.test_book]
           (Sample.get (AuthenticatedUser false {[ "bookapp.change_book" ]}) "1/edit" ∅)
           BookUpdate 1); [by vm_compute | reflexivity | by eexists |].
  left. split; [reflexivity | by vm_compute].
Defined.

Lemma is_valid_false_when_before (P : Project) (data files : gmap string value) :
  Spec.model_reports_on_fields P →
  Spec.candidate P data files = true → Spec.read_before_published P data = true →
  is_valid P data files = Some false.
Proof.
  intros Hmodel Hc Hrbp.
  destruct (candidate_clean_fields P data files Hc) as [st1 Hst1].
  pose proof (clean_st1 P data files st1 Hst1) as Hclean. rewrite Hrbp in Hclean.
  unfold is_valid, BookForm, full_clean, _clean_form. rewrite Hst1. simpl.
  rewrite Hclean. simpl.
  destruct (post_clean_Some error_messages (Book_fields P) (Model_clean P)
              (add_error "read_date"
                 ["The read date must be after the published date"] st1)
              (Hmodel _)) as [st Hst].
  rewrite Hst. simpl. f_equal. apply bool_decide_eq_false. intros Hempty.
  assert (is_Some (_errors st !! "read_date")) as [messages Hm].
  { apply (post_clean_keeps_errors _ _ _ _ _ _ Hst).
    rewrite add_error_errors, decide_True by done. by eexists. }
  by rewrite Hempty, lookup_empty in Hm.
Qed.

(** X6: a submission whose read date is before its published date is
    never saved, whatever the model's own [clean] reports on the fields of
    the form: posted to the creation form by a logged-in user, or to the
    edit form of an existing record by a user who may change it, it is
    answered with the form again (200), not with the redirect that follows
    a save (302).  The dates are those the form reads in what is posted,
    texts included. *)
Theorem bad_dates_are_not_saved (project : Project) (table : list Book)
    (request : HttpRequest) (v : view) (pk : Z) :
  resolve urlpatterns (path request) = Some (v, pk) →
  method request = Post →
  Spec.model_reports_on_fields project →
  Spec.candidate project (POST request) (FILES request) = true →
  Spec.read_before_published project (POST request) = true →
  (v = BookCreate ∧ is_authenticated (user request) = true)
  ∨ (v = BookUpdate ∧ has_perm (user request) "bookapp.change_book" = true
     ∧ is_Some (get_object table pk)) →
  get_response project table request = Some 200.
Proof.
  intros Hr Hm Hmodel Hc Hrbp Hv.
  pose proof (is_valid_false_when_before project _ (FILES request) Hmodel Hc Hrbp)
    as Hinvalid.
  destruct Hv as [[-> Hauth] | (-> & Hperm & [b Hb])];
    rewrite (get_response_class_view _ _ _ _ _ _ _ Hr eq_refl); simpl.
  - by rewrite Hauth, Hm, Hinvalid.
  - by rewrite Hperm, Hb, Hm, Hinvalid.
Qed.

Lemma project_without_model_clean_reports_nothing :
  Spec.model_reports_on_fields Sample.project_without_model_clean.
Proof. intros instance k [messages Hk]. simpl in Hk. by rewrite lookup_empty in Hk. Qed.

Lemma form_route_resolves : resolve urlpatterns "form" = Some (BookCreate, 0).
Proof. vm_compute. reflexivity. Qed.

Lemma late_read_date_breaks_rule :
  Spec.read_before_published Sample.project_without_model_clean
    (<["read_date" := VStr "2019-12-31"]> Sample.valid_text) = true.
Proof. vm_compute. reflexivity. Qed.

Lemma bad_dates_are_not_saved_witness :
  get_response Sample.project_without_model_clean []
    (Sample.post Sample.regular_user "form"
       (<["read_date" := VStr "2019-12-31"]> Sample.valid_text))
  = Some 200.
Proof.
  apply (bad_dates_are_not_saved Sample.project_without_model_clean []
           (Sample.post Sample.regular_user "form"
              (<["read_date" := VStr "2019-12-31"]> Sample.valid_text))
           BookCreate 0 form_route_resolves eq_refl
           project_without_model_clean_reports_nothing late_read_date_candidate
           late_read_date_breaks_rule).
  left. by split.
Defined.

(** ** The pages of the list view *)

Lemma num_pages_pos (p : Paginator) :
  (0 < per_page p)%nat → (1 ≤ num_pages p)%nat.
Proof.
  intros Hn. unfold num_pages.
  apply (Nat.div_le_lower_bound _ _ 1); lia.
Qed.

Lemma last_page_starts_inside (p : Paginator) :
  (0 < per_page p)%nat → object_list p ≠ [] →
  ((num_pages p - 1) * per_page p < length (object_list p))%nat.
Proof.
  intros Hn Hne. unfold num_pages.
  assert (0 < length (object_list p))%nat by (destruct (object_list p); simpl; [done | lia]).
  rewrite Nat.max_r by lia.
  pose proof (Nat.div_mod (length (object_list p) + per_page p - 1) (per_page p)
                ltac:(lia)).
  pose proof (Nat.mod_upper_bound (length (object_list p) + per_page p - 1) (per_page p)
                ltac:(lia)).
  nia.
Qed.

Lemma get_page_is_page (p : Paginator) (number : option string) :
  (0 < per_page p)%nat →
  ∃ n, (1 ≤ n ≤ num_pages p)%nat ∧ get_page p number = page p n ∧
       (number = None → n = 1%nat).
Proof.
  intros Hn. pose proof (num_pages_pos p Hn). unfold get_page.
  destruct (number ≫= py_int) as [z|] eqn:Hz.
  - destruct ((z <? 1) || (Z.of_nat (num_pages p) <? z)) eqn:Hrange.
    + exists (num_pages p). split; [lia |]. split; [done |]. by intros ->.
    + apply orb_false_iff in Hrange as [H1 H2].
      exists (Z.to_nat z). split; [lia |]. split; [done |]. by intros ->.
  - exists 1%nat. by repeat split; try lia.
Qed.

(** X7: whatever the [page] parameter holds, the page the list view
    shows is a block of at most five consecutive rows of the ordered,
    filtered list, and it is never empty while that list has rows; with no
    [page] parameter it is the first five rows. *)
Theorem book_list_page_obj (table : list Book) (request : HttpRequest) :
  ∃ rows ctx k,
    evaluate table (book_list_books request) = Some rows ∧
    book_list table request = Render ctx ∧
    page_obj ctx = take 5 (drop (k * 5) rows) ∧
    (length (page_obj ctx) ≤ 5)%nat ∧
    page_obj ctx `sublist_of` rows ∧
    (rows ≠ [] → page_obj ctx ≠ []) ∧
    (GET request !! "page" = None → page_obj ctx = take 5 rows).
Proof.
  destruct (book_list_renders table request) as (rows & Hev & Hctx).
  destruct (get_page_is_page {| object_list := rows; per_page := 5 |}
              (GET request !! "page") ltac:(simpl; lia)) as (n & Hn & Hpage & Hfirst).
  exists rows. eexists. exists (n - 1)%nat.
  split; [done |]. split; [exact Hctx |]. simpl. rewrite Hpage. unfold page. simpl.
  split; [done |]. split; [rewrite length_take; lia |].
  split; [etrans; [apply sublist_take | apply sublist_drop] |].
  split.
  - intros Hne.
    pose proof (last_page_starts_inside {| object_list := rows; per_page := 5 |}
                  ltac:(simpl; lia) Hne) as Hlast.
    change (per_page _) with 5%nat in Hlast. change (object_list _) with rows in Hlast.
    intros Hnil. apply (f_equal length) in Hnil.
    rewrite length_take, length_drop in Hnil. change (length []) with 0%nat in Hnil. lia.
  - intros Hnone. by rewrite (Hfirst Hnone).
Qed.

Lemma pretty_N_cases (d : N) :
  (d < 10)%N →
  (d = 0 ∨ d = 1 ∨ d = 2 ∨ d = 3 ∨ d = 4 ∨ d = 5 ∨ d = 6 ∨ d = 7 ∨ d = 8 ∨ d = 9)%N.
Proof. lia. Qed.

Lemma digits_pretty_N_char (d : N) (acc : Z) (s : string) :
  (d < 10)%N →
  digits acc (String (pretty_N_char d) s) = digits (10 * acc + Z.of_N d) s.
Proof.
  intros Hd%pretty_N_cases.
  repeat (destruct Hd as [-> | Hd]; [done |]). by subst.
Qed.

Lemma digits_pretty_N_go (x : N) (s : string) :
  (0 < x)%N → digits 0 (pretty_N_go x s) = digits (Z.of_N x) s.
Proof.
  revert s. induction (N.lt_wf_0 x) as [x _ IH]. intros s Hx.
  rewrite pretty_N_go_step by done.
  pose proof (N.mod_lt x 10 ltac:(done)) as Hmod.
  destruct (decide (x < 10)%N) as [Hsmall | Hbig].
  - rewrite N.div_small, pretty_N_go_0 by done.
    rewrite digits_pretty_N_char by done. by rewrite N.mod_small.
  - rewrite IH; [| apply N.div_lt; lia | apply N.div_str_pos; lia].
    rewrite digits_pretty_N_char by done. f_equal.
    rewrite (N.div_mod x 10) at 3 by done. lia.
Qed.

Local Abbreviation no_space s :=
  (Forall (λ c, is_int_space c = false) (String.list_ascii_of_string s)).

Lemma lstrip_no_space (s : string) : no_space s → int_lstrip s = s.
Proof. destruct s as [|c s]; simpl; [done |]. intros [-> _]%Forall_cons. done. Qed.

Lemma rev_app_no_space (s a : string) :
  no_space s → no_space a → no_space (String.rev_app s a).
Proof.
  revert a. induction s as [|c s IH]; simpl; intros a Hs Ha; [done |].
  apply Forall_cons in Hs as [Hc Hs]. apply IH; [done |]. by constructor.
Qed.

Lemma rev_app_rev_app (s a b : string) :
  String.rev_app (String.rev_app s a) b = String.rev_app a (s +:+ b).
Proof.
  revert a b. induction s as [|c s IH]; intros a b; simpl; [done |].
  by rewrite IH.
Qed.

Lemma app_empty_r (s : string) : s +:+ "" = s.
Proof. induction s as [|c s IH]; [done |]. by rewrite app_String, IH. Qed.

Lemma strip_no_space (s : string) : no_space s → int_strip s = s.
Proof.
  intros Hs. unfold int_strip, String.rev. rewrite (lstrip_no_space s Hs).
  rewrite lstrip_no_space by (apply rev_app_no_space; [done | constructor]).
  rewrite rev_app_rev_app. simpl. apply app_empty_r.
Qed.

Lemma pretty_N_char_no_space (d : N) : is_int_space (pretty_N_char d) = false.
Proof. unfold pretty_N_char. by repeat case_match. Qed.

Lemma pretty_N_go_no_space (x : N) (s : string) :
  no_space s → no_space (pretty_N_go x s).
Proof.
  revert s. induction (N.lt_wf_0 x) as [x _ IH]. intros s Hs.
  destruct (decide (0 < x)%N) as [Hx | Hx].
  - rewrite pretty_N_go_step by done. apply IH; [apply N.div_lt; lia |].
    simpl. constructor; [apply pretty_N_char_no_space | done].
  - assert (x = 0%N) as -> by lia. by rewrite pretty_N_go_0.
Qed.

Lemma pretty_N_go_head (x : N) (s : string) :
  (0 < x)%N → ∃ d r, (d < 10)%N ∧ pretty_N_go x s = String (pretty_N_char d) r.
Proof.
  revert s. induction (N.lt_wf_0 x) as [x _ IH]. intros s Hx.
  rewrite pretty_N_go_step by done.
  destruct (decide (x < 10)%N) as [Hsmall | Hbig].
  - rewrite N.div_small, pretty_N_go_0 by done.
    exists (x `mod` 10)%N, s. split; [by apply N.mod_lt | done].
  - apply IH; [apply N.div_lt; lia | apply N.div_str_pos; lia].
Qed.

Lemma py_int_pretty (k : nat) : (0 < k)%nat → py_int (pretty k) = Some (Z.of_nat k).
Proof.
  intros Hk. unfold pretty, pretty_nat, pretty, pretty_N.
  rewrite decide_False by lia.
  assert (0 < N.of_nat k)%N as HN by lia.
  unfold py_int. rewrite strip_no_space by (apply pretty_N_go_no_space; constructor).
  destruct (pretty_N_go_head (N.of_nat k) "" HN) as (d & r & Hd & Hhead).
  assert (unsigned (pretty_N_go (N.of_nat k) "") = Some (Z.of_nat k)) as Hu.
  { unfold unsigned. rewrite Hhead at 1. rewrite digit_pretty_N_char by done.
    rewrite digits_pretty_N_go by done. simpl. f_equal. lia. }
  rewrite Hhead in *. pose proof (pretty_N_cases d Hd) as Hc.
  repeat (destruct Hc as [-> | Hc]; [exact Hu |]). subst. exact Hu.
Qed.

Lemma book_list_books_with_page (request : HttpRequest) (text : string) :
  book_list_books (Spec.with_page request text) = book_list_books request.
Proof.
  unfold book_list_books, book_list_order_by, GET_get, Spec.with_page. simpl.
  by rewrite !lookup_insert_ne.
Qed.

(** X8: asking for [?page=1], [?page=2], ... up to the number of pages
    shows, for each number, the block of five rows at that place of the
    ordered, filtered list, and these blocks put one after the other are
    that list: every row is shown once, none is lost. *)
Theorem book_list_pages_in_turn (table : list Book) (request : HttpRequest) :
  ∃ rows,
    evaluate table (book_list_books request) = Some rows ∧
    (∀ k, (1 ≤ k ≤ num_pages {| object_list := rows; per_page := 5 |})%nat →
          ∃ ctx, book_list table (Spec.with_page request (pretty k)) = Render ctx ∧
                 page_obj ctx = take 5 (drop ((k - 1) * 5) rows)) ∧
    mjoin ((λ k, take 5 (drop ((k - 1) * 5) rows))
             <$> seq 1 (num_pages {| object_list := rows; per_page := 5 |})) = rows.
Proof.
  destruct (book_list_renders table request) as (rows & Hev & _).
  exists rows. split; [done |]. split.
  - intros k Hk.
    destruct (book_list_renders table (Spec.with_page request (pretty k)))
      as (rows' & Hev' & Hctx).
    rewrite book_list_books_with_page, Hev in Hev'. injection Hev' as <-.
    eexists. split; [exact Hctx |]. simpl. rewrite lookup_insert_eq.
    unfold get_page. simpl. rewrite py_int_pretty by lia.
    assert ((Z.of_nat k <? 1) || (Z.of_nat (num_pages {| object_list := rows;
              per_page := 5 |}) <? Z.of_nat k) = false) as ->.
    { apply orb_false_iff. split; lia. }
    unfold page. simpl. by rewrite Nat2Z.id.
  - apply (pages_cover rows 5). lia.
Qed.

(** ** The order of the list *)

Lemma date_le_not_after (a b : date) : date_le a b = true ↔ Spec.not_after a b.
Proof.
  unfold date_le, date_compare, Spec.not_after.
  destruct (Z.compare_spec (year a) (year b)), (Z.compare_spec (month a) (month b)),
    (Z.compare_spec (day a) (day b)); split; (done || lia).
Qed.

Lemma date_le_total (a b : date) : date_le a b = false → date_le b a = true.
Proof.
  intros Hab. apply date_le_not_after.
  destruct (date_le a b) eqn:H; [done |].
  assert (¬ Spec.not_after a b) as Hn by (rewrite <- date_le_not_after; congruence).
  unfold Spec.not_after in *. lia.
Qed.

Lemma date_le_trans (a b c : date) :
  date_le a b = true → date_le b c = true → date_le a c = true.
Proof. rewrite !date_le_not_after. unfold Spec.not_after. lia. Qed.

Lemma string_leb_total (a b : string) : String.leb a b = false → String.leb b a = true.
Proof. destruct (String.leb_total a b); congruence. Qed.

Lemma string_leb_trans (a b c : string) :
  String.leb a b = true → String.leb b c = true → String.leb a c = true.
Proof.
  intros Hab%Is_true_true Hbc%Is_true_true. apply Is_true_true.
  change ((a ≤ c)%string). by transitivity b.
Qed.

Lemma option_leb_total {A} (leb : A → A → bool) :
  (∀ x y, leb x y = false → leb y x = true) →
  ∀ a b, option_leb leb a b = false → option_leb leb b a = true.
Proof. intros Ht [x|] [y|]; simpl; auto. Qed.

Lemma option_leb_trans {A} (leb : A → A → bool) :
  (∀ x y z, leb x y = true → leb y z = true → leb x z = true) →
  ∀ a b c, option_leb leb a b = true → option_leb leb b c = true →
           option_leb leb a c = true.
Proof. intros Ht [x|] [y|] [z|]; simpl; eauto; done. Qed.

Lemma column_leb_total (c : column) (a b : Book) :
  column_leb c a b = false → column_leb c b a = true.
Proof.
  destruct c; simpl;
    eauto using string_leb_total, date_le_total, option_leb_total; try lia.
  apply option_leb_total. lia.
Qed.

Lemma column_leb_trans (c : column) (x y z : Book) :
  column_leb c x y = true → column_leb c y z = true → column_leb c x z = true.
Proof.
  destruct c; simpl;
    eauto using string_leb_trans, date_le_trans, option_leb_trans; try lia.
  apply option_leb_trans. lia.
Qed.

Lemma ordering_leb_total (o : bool * column) (a b : Book) :
  ordering_leb o a b = false → ordering_leb o b a = true.
Proof. destruct o as [[] c]; apply column_leb_total. Qed.

Lemma ordering_leb_trans (o : bool * column) :
  Transitive (λ a b, ordering_leb o a b = true).
Proof.
  destruct o as [[] c]; intros x y z Hxy Hyz; unfold ordering_leb in *; simpl in *;
    eauto using column_leb_trans.
Qed.

Lemma evaluate_sorted (table : list Book) (qs : QuerySet) (key : string)
    (o : bool * column) (rows : list Book) :
  qs_order_by qs = Some key → parse_ordering key = Some o →
  evaluate table qs = Some rows →
  StronglySorted (λ a b, ordering_leb o a b = true) rows.
Proof.
  intros Hkey Ho. unfold evaluate. rewrite Hkey. simpl. rewrite Ho. simpl.
  intros [= <-]. apply Sorted_StronglySorted; [apply ordering_leb_trans |].
  apply sort_by_Sorted, ordering_leb_total.
Qed.

Lemma null_first_leb (x y : option Z) :
  option_leb Z.leb x y = true → Spec.null_first Z.le x y.
Proof. destruct x, y; simpl; (done || lia). Qed.

Lemma in_order_of_ordering_leb (key : string) (o : bool * column) (a b : Book) :
  key ∈ VALID_ORDER_FIELDS → parse_ordering key = Some o →
  ordering_leb o a b = true → Spec.in_order key a b.
Proof.
  unfold VALID_ORDER_FIELDS. rewrite !elem_of_cons, elem_of_nil. intros Hkey.
  repeat (destruct Hkey as [-> | Hkey]); try done;
    intros [= <-]; unfold ordering_leb, Spec.in_order; simpl;
    first [ apply Is_true_true_2 | apply null_first_leb | apply date_le_not_after | lia ].
Qed.

Lemma StronglySorted_weaken {A} (R S : relation A) (l : list A) :
  (∀ a b, R a b → S a b) → StronglySorted R l → StronglySorted S l.
Proof.
  intros HRS. induction 1 as [|x l Hl IH Hall]; constructor; [done |].
  eapply Forall_impl; [exact Hall | auto].
Qed.

(** X9: a sort key from the list is obeyed: the rows of the list view
    come out in the order the key names, ascending for a bare field name
    and descending for one with a leading "-", any two rows of the result
    standing in that order (rows without rating count as smallest). *)
Theorem book_list_obeys_sort_key (table : list Book) (request : HttpRequest)
    (key : string) :
  GET request !! "order_by" = Some key →
  key ∈ VALID_ORDER_FIELDS →
  ∃ rows,
    evaluate table (book_list_books request) = Some rows ∧
    StronglySorted (Spec.in_order key) rows.
Proof.
  intros Hget Hkey.
  assert (book_list_order_by request = key) as Hsame.
  { unfold book_list_order_by, GET_get. rewrite Hget.
    change (default "title" (Some key)) with key.
    apply str_in_elem_of in Hkey. by rewrite Hkey. }
  destruct (book_list_evaluates table request) as (o & Ho & Hev).
  rewrite Hsame in Ho. eexists. split; [exact Hev |].
  apply (StronglySorted_weaken (λ a b, ordering_leb o a b = true)).
  - intros a b. by apply in_order_of_ordering_leb.
  - eapply evaluate_sorted; [| exact Ho | exact Hev].
    rewrite book_list_books_order_by. by rewrite Hsame.
Qed.

Lemma book_list_obeys_sort_key_witness :
  ∃ rows,
    evaluate [Sample.rated 1 5; Sample.rated 3 2; Sample.rated 2 4]
      (book_list_books (Sample.get AnonymousUser "list" {[ "order_by" := "-pages" ]}))
    = Some rows ∧
    StronglySorted (λ a b, pages b ≤ pages a) rows.
Proof.
  apply (book_list_obeys_sort_key [Sample.rated 1 5; Sample.rated 3 2; Sample.rated 2 4]
           (Sample.get AnonymousUser "list" {[ "order_by" := "-pages" ]}) "-pages").
  - reflexivity.
  - apply str_in_elem_of. reflexivity.
Defined.

(** ** The filter of the list *)

Lemma contains_empty (h : string) : contains "" h = true.
Proof. rewrite contains_unfold. by destruct h. Qed.

Lemma where_clause_book_list (request : HttpRequest) (b : Book) :
  where_clause (book_list_books request) b
  = icontains (GET_get request "title" "") b.
Proof.
  unfold where_clause. rewrite book_list_books_filter.
  destruct (String.eqb_spec (GET_get request "title" "") "") as [-> | Hne]; [| done].
  unfold icontains. simpl. by rewrite contains_empty.
Qed.

Lemma book_list_rows (table : list Book) (request : HttpRequest) :
  ∃ rows,
    evaluate table (book_list_books request) = Some rows ∧
    rows ≡ₚ List.filter (icontains (GET_get request "title" "")) table.
Proof.
  destruct (book_list_evaluates table request) as (o & _ & Hev).
  eexists. split; [exact Hev |]. rewrite sort_by_Permutation.
  by rewrite (List.filter_ext _ _ (where_clause_book_list request)).
Qed.

(** X10: the sort key changes the order of the rows and nothing else:
    two requests with the same [title] parameter list the same rows, each
    as often as the other, whatever their [order_by] and [page]
    parameters. *)
Theorem book_list_order_keeps_rows (table : list Book) (r1 r2 : HttpRequest) :
  GET_get r1 "title" "" = GET_get r2 "title" "" →
  ∃ rows1 rows2,
    evaluate table (book_list_books r1) = Some rows1 ∧
    evaluate table (book_list_books r2) = Some rows2 ∧
    rows1 ≡ₚ rows2.
Proof.
  intros Hsame.
  destruct (book_list_rows table r1) as (rows1 & Hev1 & Hp1).
  destruct (book_list_rows table r2) as (rows2 & Hev2 & Hp2).
  exists rows1, rows2. split; [done |]. split; [done |].
  by rewrite Hp1, Hp2, Hsame.
Qed.

Lemma book_list_order_keeps_rows_witness :
  ∃ rows1 rows2,
    evaluate Sample.table
      (book_list_books (Sample.get AnonymousUser "list" {[ "order_by" := "-title" ]}))
    = Some rows1 ∧
    evaluate Sample.table
      (book_list_books (Sample.get AnonymousUser "list" {[ "order_by" := "pages" ]}))
    = Some rows2 ∧
    rows1 ≡ₚ rows2.
Proof.
  exact (book_list_order_keeps_rows Sample.table
           (Sample.get AnonymousUser "list" {[ "order_by" := "-title" ]})
           (Sample.get AnonymousUser "list" {[ "order_by" := "pages" ]}) eq_refl).
Defined.





(** ** The statistics *)

Lemma head_sort_by_least {A} (leb : A → A → bool) (l : list A) (x : A) :
  (∀ a b, leb a b = false → leb b a = true) →
  Transitive (λ a b, leb a b = true) →
  x ∈ l →
  ∃ h, head (sort_by leb l) = Some h ∧ h ∈ l ∧ leb h x = true.
Proof.
  intros Htotal Htrans Hx.
  pose proof (sort_by_Permutation leb l) as Hperm.
  pose proof (Sorted_StronglySorted _ _ (sort_by_Sorted leb Htotal l)) as Hsorted.
  rewrite <- Hperm in Hx.
  destruct (sort_by leb l) as [|h rest]; [by apply elem_of_nil in Hx |].
  exists h. split; [done |]. split; [rewrite <- Hperm; apply list_elem_of_here |].
  apply StronglySorted_cons in Hsorted as [Hall _].
  apply elem_of_cons in Hx as [-> | Hx].
  - destruct (leb h h) eqn:Hh; [done |]. pose proof (Htotal _ _ Hh). congruence.
  - rewrite Forall_forall in Hall. by apply Hall.
Qed.

(** X12: while the table has rows, the two records the statistics view
    shows are rows of the table, the one with the most pages and the one
    with the fewest: no row has more pages than the first or fewer than the
    second. *)
Theorem stats_extreme_pages (table : list Book) :
  ∃ ctx,
    stats table = Render ctx ∧
    ∀ b, b ∈ table →
         ∃ hi lo, max_pages ctx = Some hi ∧ min_pages ctx = Some lo ∧
                  hi ∈ table ∧ lo ∈ table ∧ pages lo ≤ pages b ≤ pages hi.
Proof.
  eexists. split; [apply stats_renders |]. simpl. intros b Hb.
  destruct (head_sort_by_least (ordering_leb (true, c_pages)) table b
              (ordering_leb_total _) (ordering_leb_trans _) Hb) as (hi & -> & Hhi & Hle1).
  destruct (head_sort_by_least (ordering_leb (false, c_pages)) table b
              (ordering_leb_total _) (ordering_leb_trans _) Hb) as (lo & -> & Hlo & Hle2).
  exists hi, lo. unfold ordering_leb in *. simpl in *. repeat split; try done; lia.
Qed.

Lemma sum_list_with_add {A} (f g : A → nat) (l : list A) :
  sum_list_with (λ k, f k + g k)%nat l = (sum_list_with f l + sum_list_with g l)%nat.
Proof. induction l as [|x l IH]; simpl; lia. Qed.

Lemma sum_list_with_indicator `{EqDecision K} (x : K) (ks : list K) :
  NoDup ks → x ∈ ks →
  sum_list_with (λ k, if decide (x = k) then 1 else 0)%nat ks = 1%nat.
Proof.
  induction 1 as [|k ks Hk Hnd IH]; intros Hx; [by apply elem_of_nil in Hx |].
  simpl. destruct (decide (x = k)) as [-> | Hne].
  - assert (sum_list_with (λ k', if decide (k = k') then 1 else 0)%nat ks = 0%nat) as ->;
      [| done].
    clear IH Hx Hnd. induction ks as [|k' ks IH]; simpl; [done |].
    apply not_elem_of_cons in Hk as [Hne Hk]. rewrite decide_False by done.
    by rewrite IH.
  - apply elem_of_cons in Hx as [? | Hx]; [done |]. by rewrite IH.
Qed.

Lemma sum_list_with_pointwise {A} (f g : A → nat) (l : list A) :
  (∀ k, f k = g k) → sum_list_with f l = sum_list_with g l.
Proof. intros Hfg. induction l as [|x l IH]; simpl; [done |]. by rewrite Hfg, IH. Qed.

Lemma sum_list_with_zero {A} (l : list A) : sum_list_with (λ _, 0%nat) l = 0%nat.
Proof. induction l; simpl; lia. Qed.

Lemma sum_of_counts `{EqDecision K} (ks keys : list K) :
  NoDup ks → (∀ x, x ∈ keys → x ∈ ks) →
  sum_list_with (λ k, length (filter (λ x, x = k) keys)) ks = length keys.
Proof.
  intros Hnd. induction keys as [|x keys IH]; intros Hin.
  - apply sum_list_with_zero.
  - rewrite (sum_list_with_pointwise _
               (λ k, (if decide (x = k) then 1 else 0)
                     + length (filter (λ x, x = k) keys))%nat).
    + rewrite sum_list_with_add, sum_list_with_indicator, IH; [done | | done |].
      * intros y Hy. apply Hin. by apply list_elem_of_further.
      * apply Hin, list_elem_of_here.
    + intros k. rewrite filter_cons. by destruct (decide (x = k)).
Qed.

Lemma foldr_add_of_nat {A} (f : A → nat) (l : list A) :
  foldr Z.add 0 ((λ k, Z.of_nat (f k)) <$> l) = Z.of_nat (sum_list_with f l).
Proof. induction l as [|x l IH]; csimpl; [done |]. rewrite IH. lia. Qed.

Lemma values_count_total `{EqDecision K} (keys : list K) :
  foldr Z.add 0 (values_count keys).*2 = Z.of_nat (length keys).
Proof.
  assert ((values_count keys).*2
          = (λ k, Z.of_nat (length (filter (λ x, x = k) keys))) <$> remove_dups keys)
    as ->.
  { unfold values_count. generalize (remove_dups keys). intros l.
    induction l as [|k l IH]; [done |]. rewrite !fmap_cons. simpl. by f_equal. }
  rewrite (foldr_add_of_nat (λ k, length (filter (λ x, x = k) keys))).
  f_equal. apply sum_of_counts; [apply NoDup_remove_dups |].
  intros x. by rewrite elem_of_remove_dups.
Qed.

Lemma count_status (table : list Book) (s : string) :
  length (filter (λ x, x = s) (status <$> table))
  = length (filter (λ b, status b = s) table).
Proof.
  induction table as [|b table IH]; [done |]. rewrite fmap_cons, !filter_cons.
  destruct (decide (status b = s)); simpl; by rewrite IH.
Qed.

(** X13: the status distribution of the statistics view has one entry
    for each status that occurs in the table, none twice, each with the
    number of rows of that status; its counts add up to the number of rows.
    The labels and counts rendered are the two columns of that list. *)
Theorem stats_status_distribution (table : list Book) :
  (∀ s c, (s, c) ∈ status_data table ↔
          (∃ b, b ∈ table ∧ status b = s) ∧
          c = Z.of_nat (length (filter (λ b, status b = s) table))) ∧
  NoDup (status_data table).*1 ∧
  foldr Z.add 0 (status_data table).*2 = Z.of_nat (length table) ∧
  ∃ ctx,
    stats table = Render ctx ∧
    status_labels ctx = json_dumps_strs (status_data table).*1 ∧
    status_counts ctx = json_dumps_ints (status_data table).*2.
Proof.
  split; [| split; [| split]].
  - intros s c. unfold status_data.
    rewrite elem_of_values_count, list_elem_of_fmap, count_status.
    split; intros [(b & H1 & H2) ->]; (split; [| done]); exists b; by split.
  - unfold status_data. rewrite values_count_keys. apply NoDup_remove_dups.
  - unfold status_data. by rewrite values_count_total, length_fmap.
  - eexists. split; [apply stats_renders | done].
Qed.

Lemma foldr_add_Permutation (l1 l2 : list Z) :
  l1 ≡ₚ l2 → foldr Z.add 0 l1 = foldr Z.add 0 l2.
Proof. induction 1; simpl; lia. Qed.

Lemma length_omap_rating (table : list Book) :
  length (omap rating table) = length (filter (λ b, is_Some (rating b)) table).
Proof.
  induction table as [|b table IH]; [done |]. rewrite filter_cons.
  change (omap rating (b :: table))
    with (match rating b with Some r => r :: omap rating table
          | None => omap rating table end).
  destruct (decide (is_Some (rating b))) as [[r Hr] | Hnone].
  - rewrite Hr. simpl. by rewrite IH.
  - destruct (rating b) as [r|]; [| done]. exfalso. apply Hnone. by eexists.
Qed.

(** X14: the counts of the rating distribution add up to the number of
    rows that have a rating: every rated row is counted once, and a row
    without rating not at all. *)
Theorem stats_rating_counts_total (table : list Book) :
  foldr Z.add 0 (rating_data table).*2
  = Z.of_nat (length (filter (λ b, is_Some (rating b)) table)).
Proof.
  assert (Hperm : rating_data table ≡ₚ values_count (omap rating table))
    by apply sort_by_Permutation.
  rewrite (foldr_add_Permutation _ (values_count (omap rating table)).*2)
    by (by rewrite Hperm).
  by rewrite values_count_total, length_omap_rating.
Qed.







(** ** The form *)

(** X16: [BookForm.clean] touches nothing but read_date: every other
    field keeps its value and its messages, the messages read_date already
    had stay in front of what is added, and either nothing changes or
    read_date leaves [cleaned_data]. *)
Theorem clean_touches_read_date_only (st st' : form) :
  clean st = Some st' →
  (∀ k, k ≠ "read_date" →
        _errors st' !! k = _errors st !! k ∧
        cleaned_data st' !! k = cleaned_data st !! k) ∧
  (∃ added, default [] (_errors st' !! "read_date")
            = (default [] (_errors st !! "read_date") ++ added)%list) ∧
  (st' = st ∨ cleaned_data st' !! "read_date" = None).
Proof.
  unfold clean.
  destruct (truthy _ && truthy _)%bool.
  - destruct (py_lt _ _) as [[] |]; simpl; [| | done].
    + intros [= <-]. split; [| split].
      * intros k Hk. rewrite add_error_errors, add_error_cleaned.
        by rewrite !decide_False.
      * eexists. rewrite add_error_errors, decide_True by done. done.
      * right. rewrite add_error_cleaned. by rewrite decide_True.
    + intros [= <-]. split; [done |]. split; [| by left].
      exists []. by rewrite app_nil_r.
  - intros [= <-]. split; [done |]. split; [| by left].
    exists []. by rewrite app_nil_r.
Qed.

Lemma clean_touches_read_date_only_witness :
  ∃ st',
    clean {| cleaned_data := {[ "read_date" := VDate (Date 2019 1 1);
                                "published_date" := VDate (Date 2020 1 1);
                                "pages" := VInt 0 ]};
             _errors := {[ "title" := ["The title is mandatory"] ]} |} = Some st' ∧
    _errors st' !! "title" = Some ["The title is mandatory"] ∧
    cleaned_data st' !! "pages" = Some (VInt 0).
Proof.
  destruct (clean {| cleaned_data := {[ "read_date" := VDate (Date 2019 1 1);
                                        "published_date" := VDate (Date 2020 1 1);
                                        "pages" := VInt 0 ]};
                     _errors := {[ "title" := ["The title is mandatory"] ]} |})
    as [st'|] eqn:Hclean; [| vm_compute in Hclean; discriminate].
  exists st'. split; [reflexivity |].
  destruct (clean_touches_read_date_only _ st' Hclean) as (Hframe & _ & _).
  split.
  - rewrite (proj1 (Hframe "title" ltac:(discriminate))). reflexivity.
  - rewrite (proj2 (Hframe "pages" ltac:(discriminate))). reflexivity.
Defined.

(** X17: running [BookForm.clean] a second time changes nothing: the
    message on read_date is not added twice. *)
Theorem clean_idempotent (st st' : form) :
  clean st = Some st' → clean st' = Some st'.
Proof.
  intros Hclean. pose proof Hclean as Hfirst. revert Hclean. unfold clean at 1.
  destruct (truthy _ && truthy _)%bool eqn:Htruthy.
  - destruct (py_lt _ _) as [[] |] eqn:Hlt; simpl; [| | done].
    + intros [= <-]. unfold clean, dict_get at 1.
      rewrite add_error_cleaned, decide_True by done. done.
    + by intros [= <-].
  - by intros [= <-].
Qed.

Lemma clean_idempotent_witness :
  ∃ st',
    clean {| cleaned_data := {[ "read_date" := VDate (Date 2019 1 1);
                                "published_date" := VDate (Date 2020 1 1) ]};
             _errors := ∅ |} = Some st' ∧
    _errors st' !! "read_date" = Some ["The read date must be after the published date"] ∧
    clean st' = Some st'.
Proof.
  destruct (clean {| cleaned_data := {[ "read_date" := VDate (Date 2019 1 1);
                                        "published_date" := VDate (Date 2020 1 1) ]};
                     _errors := ∅ |})
    as [st'|] eqn:Hclean; [| vm_compute in Hclean; discriminate].
  exists st'. split; [reflexivity |].
  split; [| exact (clean_idempotent _ st' Hclean)].
  vm_compute in Hclean. injection Hclean as <-. reflexivity.
Defined.

Lemma add_error_settled flds n m st :
  Spec.settled flds st → Spec.settled flds (add_error n m st).
Proof.
  intros [Hdisj Hcov]. split.
  - intros k. rewrite add_error_cleaned, add_error_errors.
    case_decide; [by intros [? ?] | apply Hdisj].
  - intros f Hf. rewrite add_error_cleaned, add_error_errors.
    case_decide; [right; by eexists | by apply Hcov].
Qed.

Lemma clean_fields_settled E flds data files st1 :
  NoDup (name <$> flds) →
  _clean_fields flds E data files {| cleaned_data := ∅; _errors := ∅ |} = Some st1 →
  Spec.settled flds st1.
Proof.
  intros Hnd Hst1. split.
  - intros k Hk. destruct (decide (k ∈ name <$> flds)) as [Hin | Hout].
    + apply list_elem_of_fmap in Hin as (f & -> & Hf).
      destruct (clean_fields_at E flds data files _ st1 f Hnd Hf Hst1) as [Hc He].
      rewrite Hc in Hk. rewrite He.
      destruct (field_clean _ f _) as [[errors | x] |];
        [by destruct Hk | apply lookup_empty | by destruct Hk].
    + destruct (clean_fields_other E flds data files _ st1 k Hst1 Hout) as [_ ->].
      apply lookup_empty.
  - intros f Hf.
    destruct (clean_fields_at E flds data files _ st1 f Hnd Hf Hst1) as [-> ->].
    destruct (clean_fields_Some_inv E flds data files _ st1 f Hst1 Hf) as [[errors | x] ->];
      [right | left]; by eexists.
Qed.

Lemma clean_settled flds st st' :
  clean st = Some st' → Spec.settled flds st → Spec.settled flds st'.
Proof.
  unfold clean. destruct (truthy _ && truthy _)%bool; [| by intros [= <-]].
  destruct (py_lt _ _) as [[] |]; simpl; [| by intros [= <-] | done].
  intros [= <-]. apply add_error_settled.
Qed.

Lemma model_clean_fields_settled E flds exclude instance l st :
  Spec.settled flds st → Spec.settled flds (foldl (model_clean_field E exclude instance) st l).
Proof.
  revert st. induction l as [|f l IH]; intros st Hst; [done |].
  simpl. apply IH. unfold model_clean_field.
  repeat case_match; try done. by apply add_error_settled.
Qed.

Lemma post_clean_settled E flds model_clean st st' :
  _post_clean flds E model_clean st = Some st' →
  Spec.settled flds st → Spec.settled flds st'.
Proof.
  unfold _post_clean, _update_errors. intros Hpost Hst. revert st' Hpost.
  apply (map_fold_weak_ind (λ acc _, ∀ st', acc = Some st' → Spec.settled flds st')).
  - intros st' [= <-]. by apply model_clean_fields_settled.
  - intros k messages m [acc|] _ IH st'; [| done]. simpl.
    case_decide; [| done]. intros [= <-]. apply add_error_settled. by apply IH.
Qed.

(** X18: after [full_clean] with the form's [clean], whatever the model
    reports, each field of the form is settled one way: it has a value in
    [cleaned_data] exactly when it has no messages, so [cleaned_data] never
    holds a field that was rejected. *)
Theorem full_clean_settles_every_field (flds : list field)
    (E : gmap string (gmap string string))
    (model_clean : gmap string value → gmap string (list string))
    (data files : gmap string value) (st : form) :
  NoDup (name <$> flds) →
  full_clean flds E clean model_clean data files = Some st →
  (∀ f, f ∈ flds → is_Some (cleaned_data st !! name f) ↔ _errors st !! name f = None) ∧
  (∀ k, is_Some (cleaned_data st !! k) → _errors st !! k = None).
Proof.
  intros Hnd. unfold full_clean, _clean_form.
  destruct (_clean_fields flds E data files _) as [st1|] eqn:Hfields; [| done]. simpl.
  pose proof (clean_fields_settled E flds data files st1 Hnd Hfields) as Hst1.
  destruct (clean _) as [st2|] eqn:Hclean; [| done]. simpl. intros Hpost.
  pose proof (post_clean_settled E flds model_clean st2 st Hpost
                (clean_settled flds _ st2 Hclean Hst1)) as [Hdisj Hcov].
  split; [| exact Hdisj].
  intros f Hf. split; [apply Hdisj |].
  intros Hnone. destruct (Hcov f Hf) as [Hc | [? He]]; [done | congruence].
Qed.

Lemma full_clean_settles_every_field_witness :
  ∃ st,
    BookForm Sample.project
      (<["read_date" := VDate (Date 2019 1 1)]> Sample.valid_data) ∅ = Some st ∧
    cleaned_data st !! "read_date" = None ∧
    is_Some (cleaned_data st !! "title").
Proof.
  destruct (BookForm Sample.project
              (<["read_date" := VDate (Date 2019 1 1)]> Sample.valid_data) ∅)
    as [st|] eqn:Hform; [| vm_compute in Hform; discriminate].
  exists st. split; [reflexivity |].
  destruct (full_clean_settles_every_field (Book_fields Sample.project)
              error_messages (Model_clean Sample.project)
              (<["read_date" := VDate (Date 2019 1 1)]> Sample.valid_data) ∅ st
              (Book_fields_NoDup Sample.project) Hform) as [Hiff _].
  assert (Herr : _errors st !! "read_date"
                 = Some ["The read date must be after the published date"]).
  { vm_compute in Hform. injection Hform as <-. reflexivity. }
  assert (Htitle : _errors st !! "title" = None).
  { vm_compute in Hform. injection Hform as <-. reflexivity. }
  split.
  - destruct (cleaned_data st !! "read_date") as [x|] eqn:Hx; [| done].
    pose proof (proj1 (Hiff (read_date_field Sample.project) ltac:(in_fields))
                  ltac:(by eexists)).
    simpl in *. congruence.
  - apply (Hiff (title_field)); [in_fields | exact Htitle].
Defined.
